(** * DocuMind front end: session state and moderator dashboard

    A shallow embedding of

    - [src/contexts/AuthContext.tsx]: the [AuthProvider] component (its three
      pieces of React state, [getToken] and the [onAuthStateChanged]
      callback);
    - [ModeratorDashboard.tsx], in its two generations: the two-resource
      page of [src/pages/] (users, stats) and the four-resource page (users,
      sessions, documents, stats) that the sources carry next to
      [AuthContext.tsx].  Each has its own [loadDashboardData] and its own
      [getColorClasses].

    JavaScript values are modelled as follows.

    - A [number] is a finite rational, [NaN] or one of the two infinities;
      every finite double is a rational and [<] on finite doubles is [<] on
      the rationals they denote.
    - A string is a [string]; [===] and [Array.prototype.includes] on
      strings compare code unit by code unit, which is [String.eqb].
    - A promise is modelled by how it settles ([Settled]).
    - An [async] function body is a computation in the monad [Async]: it
      completes normally, by [throw] or by [return], and logs, in program
      order, the calls it makes to the outside: state setters, [navigate],
      [fetch], [console.error]. *)

From Stdlib Require Import String Ascii List Bool ZArith QArith Lia.
From Stdlib Require Import DecimalString.
Import ListNotations.

Local Close Scope Q_scope.
Local Open Scope string_scope.
Local Open Scope list_scope.

(* ================================================================== *)
(** * JavaScript values *)
(* ================================================================== *)

(** The type [number]. *)
Inductive number : Type :=
| Finite (q : Q)
| NaN
| PosInfinity
| NegInfinity.

Definition Qltb (a b : Q) : bool :=
  match Qcompare a b with Lt => true | _ => false end.

(** [a < b] on numbers: any comparison with [NaN] is false. *)
Definition num_lt (a b : number) : bool :=
  match a, b with
  | NaN, _ | _, NaN => false
  | Finite x, Finite y => Qltb x y
  | NegInfinity, NegInfinity => false
  | NegInfinity, _ => true
  | _, PosInfinity => match a with PosInfinity => false | _ => true end
  | PosInfinity, _ => false
  | Finite _, NegInfinity => false
  end.

Definition of_Z (z : Z) : number := Finite (inject_Z z).

#[local] Set Warnings "-register-all".

(** A parsed JSON document, what [response.json()] resolves to.  The
    TypeScript annotations on the state that receives it are erased at run
    time, so the state holds the document as parsed. *)
Inductive Json : Type :=
| JNull
| JBool (b : bool)
| JNumber (n : number)
| JString (s : string)
| JArray (items : list Json)
| JObject (fields : list (string * Json)).

(** How a promise settles. *)
Inductive Settled (A : Type) : Type :=
| Fulfilled (a : A)
| Rejected (reason : string).
Arguments Fulfilled {A} a.
Arguments Rejected {A} reason.

(** Truthiness of a string: only the empty string is falsy. *)
Definition truthy (s : string) : bool := negb (s =? "").

(** [xs.includes(x)] on an array of strings. *)
Definition includes (xs : list string) (x : string) : bool :=
  existsb (fun y => y =? x) xs.

(** [xs.includes(n)] on an array of integers. *)
Definition includesZ (xs : list Z) (n : Z) : bool :=
  existsb (fun y => Z.eqb y n) xs.

Definition string_of_Z (z : Z) : string := NilZero.string_of_int (Z.to_int z).

(* ================================================================== *)
(** * AuthContext.tsx *)
(* ================================================================== *)

Module AuthContext.

(** The provider's [User], as far as this file reads it. *)
Record User : Type := mkUser {
  uid : string;
  email : option string            (* string | null *)
}.

Definition MODERATOR_EMAILS : list string :=
  [ "akhyarahmad919@gmail.com";
    "ansuthisis789@gmail.com" ].

(** The three [useState] cells of [AuthProvider]. *)
Record AuthState : Type := mkAuthState {
  currentUser : option User;
  loading : bool;
  isModerator : bool
}.

(** [useState(null)], [useState(true)], [useState(false)]. *)
Definition initial : AuthState :=
  {| currentUser := None; loading := true; isModerator := false |}.

Definition setCurrentUser (u : option User) (s : AuthState) : AuthState :=
  {| currentUser := u; loading := loading s; isModerator := isModerator s |}.

Definition setLoading (b : bool) (s : AuthState) : AuthState :=
  {| currentUser := currentUser s; loading := b; isModerator := isModerator s |}.

Definition setIsModerator (b : bool) (s : AuthState) : AuthState :=
  {| currentUser := currentUser s; loading := loading s; isModerator := b |}.

(** [user && user.email && MODERATOR_EMAILS.includes(user.email)], as the
    condition of the [if]. *)
Definition is_moderator_user (user : option User) : bool :=
  match user with
  | None => false
  | Some u =>
      match email u with
      | None => false
      | Some e => truthy e && includes MODERATOR_EMAILS e
      end
  end.

(** The callback registered with [onAuthStateChanged].  Its three updates
    are taken as one transition of the provider's state: the states spoken
    of below are those between two runs of the callback. *)
Definition onAuthStateChanged_callback (user : option User) (s : AuthState)
  : AuthState :=
  let s := setCurrentUser user s in
  let s := if is_moderator_user user
           then setIsModerator true s
           else setIsModerator false s in
  setLoading false s.

(** The provider calls the callback once per auth-state change, in order. *)
Definition notify (s : AuthState) (user : option User) : AuthState :=
  onAuthStateChanged_callback user s.

Definition run (s : AuthState) (notifications : list (option User)) : AuthState :=
  fold_left notify notifications s.

(** The states the provider goes through: the start state, then the state
    after each notification. *)
Fixpoint history (s : AuthState) (notifications : list (option User))
  : list AuthState :=
  match notifications with
  | [] => [s]
  | u :: rest => s :: history (notify s u) rest
  end.

Inductive reachable : AuthState -> Prop :=
| reach_initial : reachable initial
| reach_notify s user : reachable s -> reachable (notify s user).

(** The provider's own auth object: [auth.currentUser] and what
    [getIdToken()] of that user settles to. *)
Record Auth : Type := mkAuth {
  auth_currentUser : option User;
  getIdToken : User -> Settled string
}.

(** [getToken]: a promise of [string | null]. *)
Definition getToken (auth : Auth) : Settled (option string) :=
  match auth_currentUser auth with
  | Some u =>
      match getIdToken auth u with
      | Fulfilled t => Fulfilled (Some t)
      | Rejected r => Rejected r
      end
  | None => Fulfilled None
  end.

(** Number of adjacent pairs [(a, b)] in a list of flags. *)
Fixpoint count_steps (a b : bool) (flags : list bool) : nat :=
  match flags with
  | x :: ((y :: _) as rest) =>
      (if Bool.eqb x a && Bool.eqb y b then 1 else 0) + count_steps a b rest
  | _ => 0
  end.

(** No identity: no current user, or one without an email. *)
Definition absent_identity (s : AuthState) : Prop :=
  match currentUser s with
  | None => True
  | Some u => email u = None
  end.

End AuthContext.

(* ================================================================== *)
(** * Async function bodies *)
(* ================================================================== *)

(** What a dashboard component does to the outside, [Setter] being the
    component's own state setters. *)
Inductive Event (Setter : Type) : Type :=
| Update (u : Setter)
| Navigate (path : string)
| Fetch (url authorization : string)
| ConsoleError (message reason : string).
Arguments Update {Setter} u.
Arguments Navigate {Setter} path.
Arguments Fetch {Setter} url authorization.
Arguments ConsoleError {Setter} message reason.

(** How a statement list completes: normally, by [throw err], or by
    [return]. *)
Inductive Completion (A : Type) : Type :=
| Normal (a : A)
| Thrown (err : string)
| Returned.
Arguments Normal {A} a.
Arguments Thrown {A} err.
Arguments Returned {A}.

Definition Async (Setter A : Type) : Type :=
  (Completion A * list (Event Setter))%type.

Section AsyncOps.
Context {Setter : Type}.
Definition ret {A} (a : A) : Async Setter A := (Normal a, []).

Definition bind {A B} (m : Async Setter A) (k : A -> Async Setter B)
  : Async Setter B :=
  let '(c, l) := m in
  match c with
  | Normal a => let '(c', l') := k a in (c', l ++ l')
  | Thrown e => (Thrown e, l)
  | Returned => (Returned, l)
  end.

Definition emit (e : Event Setter) : Async Setter unit := (Normal tt, [e]).

(** [throw new Error(msg)] *)
Definition throw {A} (msg : string) : Async Setter A := (Thrown msg, []).

(** [return;] *)
Definition return_ {A} : Async Setter A := (Returned, []).

(** [await p] *)
Definition await {A} (p : Settled A) : Async Setter A :=
  match p with
  | Fulfilled a => ret a
  | Rejected r => throw r
  end.

(** [try { body } catch (err) { handler err } finally { fin }] *)
Definition try_catch_finally
  (body : Async Setter unit) (handler : string -> Async Setter unit)
  (fin : Async Setter unit) : Async Setter unit :=
  let '(c, l) := body in
  let '(c1, l1) :=
    match c with
    | Thrown err => let '(ch, lh) := handler err in (ch, l ++ lh)
    | _ => (c, l)
    end in
  let '(cf, lf) := fin in
  match cf with
  | Normal _ => (c1, l1 ++ lf)
  | abrupt => (abrupt, l1 ++ lf)
  end.

End AsyncOps.

(** [Promise.all] of two and of four promises: fulfilled with all the
    values, or rejected when one of them is (with the reason of the first
    one in the array; the pages only log the reason). *)
Definition Promise_all2 {A B} (p1 : Settled A) (p2 : Settled B)
  : Settled (A * B) :=
  match p1, p2 with
  | Fulfilled a, Fulfilled b => Fulfilled (a, b)
  | Rejected r, _ => Rejected r
  | _, Rejected r => Rejected r
  end.

Definition Promise_all4 {A B C D}
  (p1 : Settled A) (p2 : Settled B) (p3 : Settled C) (p4 : Settled D)
  : Settled (A * B * C * D) :=
  match p1, p2, p3, p4 with
  | Fulfilled a, Fulfilled b, Fulfilled c, Fulfilled d => Fulfilled (a, b, c, d)
  | Rejected r, _, _, _ => Rejected r
  | _, Rejected r, _, _ => Rejected r
  | _, _, Rejected r, _ => Rejected r
  | _, _, _, Rejected r => Rejected r
  end.

Declare Scope async_scope.
Delimit Scope async_scope with async.
Notation "x <- m ;; k" := (bind m (fun x => k))
  (at level 61, m at next level, right associativity) : async_scope.
Notation "' p <- m ;; k" := (bind m (fun x => let p := x in k))
  (at level 61, p pattern, m at next level, right associativity) : async_scope.
Notation "m ;; k" := (bind m (fun _ => k))
  (at level 61, right associativity) : async_scope.

(* ================================================================== *)
(** * What both dashboard pages share *)
(* ================================================================== *)

(** A [Response] of [fetch]: its status and what [.json()] settles to. *)
Record Response : Type := mkResponse {
  status : Z;
  json : Settled Json
}.

(** [response.ok]: the status is in the range 200-299. *)
Definition ok (r : Response) : bool :=
  (200 <=? status r)%Z && (status r <=? 299)%Z.

(** The world one load cycle runs in. *)
Record Env : Type := mkEnv {
  auth : AuthContext.Auth;
  fetch_oracle : string -> string -> Settled Response;  (* url, Authorization *)
  now : Z                                               (* new Date() *)
}.

Definition API_BASE_URL : string := "https://akhyar919-documind.hf.space".

Section Shared.
Context {Setter : Type}.
Local Open Scope async_scope.

Definition navigate (path : string) : Async Setter unit :=
  emit (Navigate path).

Definition set (u : Setter) : Async Setter unit := emit (Update u).

Definition console_error (message reason : string) : Async Setter unit :=
  emit (ConsoleError message reason).

(** [fetch(url, { headers: { 'Authorization': authorization } })]: the
    request is issued and a promise comes back. *)
Definition fetch (env : Env) (url authorization : string)
  : Async Setter (Settled Response) :=
  emit (Fetch url authorization) ;;
  ret (fetch_oracle env url authorization).

(** [for (const response of responses) { ... }], the same in both pages. *)
Fixpoint check_responses (responses : list Response) : Async Setter unit :=
  match responses with
  | [] => ret tt
  | response :: rest =>
      if includesZ [401; 403]%Z (status response) then
        navigate "/documind" ;;
        return_
      else if negb (ok response) then
        throw ("HTTP error! status: " ++ string_of_Z (status response))
      else
        check_responses rest
  end.

End Shared.

(** [interface SystemStats], the same in both pages. *)
Record SystemStats : Type := mkSystemStats {
  cpu_usage : number;
  gpu_usage : number;
  ram_usage : number;
  storage_usage : number;
  avg_response_time : number
}.

(** An element of the array the stats overview maps over (the icon
    component left out). *)
Record StatCard : Type := mkStatCard {
  label : string;
  value : number;
  unit_ : string;
  color : string
}.

(** The array literal of the stats overview, the same in both pages. *)
Definition stat_cards (stats : SystemStats) : list StatCard :=
  [ {| label := "CPU Usage"; value := cpu_usage stats; unit_ := "%"; color := "blue" |};
    {| label := "GPU Usage"; value := gpu_usage stats; unit_ := "%"; color := "purple" |};
    {| label := "RAM Usage"; value := ram_usage stats; unit_ := "%"; color := "green" |};
    {| label := "Storage"; value := storage_usage stats; unit_ := "%"; color := "orange" |};
    {| label := "Avg Response"; value := avg_response_time stats; unit_ := "ms"; color := "cyan" |} ].

Definition green : string := "text-green-400 bg-green-900/20".
Definition yellow : string := "text-yellow-400 bg-yellow-900/20".
Definition red : string := "text-red-400 bg-red-900/20".

(** The severity tiers, and the classes each is rendered with. *)
Inductive SeverityTier : Type := nominal | elevated | critical.

Definition tier_classes (t : SeverityTier) : string :=
  match t with
  | nominal => green
  | elevated => yellow
  | critical => red
  end.

(** What a cycle signalled, read off its log. *)
Inductive Outcome : Type :=
| Unauthenticated        (* navigate('/login') *)
| Unauthorized           (* navigate('/documind') *)
| RemoteError            (* setError(non-empty message) *)
| SnapshotReplaced.      (* the snapshot setters *)

(** [!token] for a token of type [string | null]. *)
Definition falsy_token (token : option string) : bool :=
  match token with
  | None => true
  | Some t => negb (truthy t)
  end.

(** [`${token}`] *)
Definition template_token (token : option string) : string :=
  match token with
  | None => "null"
  | Some t => t
  end.

(* ================================================================== *)
(** * pages/ModeratorDashboard.tsx: the two-resource page *)
(* ================================================================== *)

Module ModeratorDashboard.

(** The [useState] cells of the component. *)
Record State : Type := mkState {
  usersData : Json;                (* UsersResponse | null *)
  stats : Json;                    (* SystemStats | null *)
  loading : bool;
  lastUpdated : option Z;          (* Date | null *)
  error : string
}.

Definition initial : State :=
  {| usersData := JNull; stats := JNull; loading := true;
     lastUpdated := None; error := "" |}.

Inductive Setter : Type :=
| setUsersData (v : Json)
| setStats (v : Json)
| setLoading (b : bool)
| setLastUpdated (d : Z)
| setError (msg : string).

Definition apply (u : Setter) (s : State) : State :=
  match u with
  | setUsersData v =>
      {| usersData := v; stats := stats s; loading := loading s;
         lastUpdated := lastUpdated s; error := error s |}
  | setStats v =>
      {| usersData := usersData s; stats := v; loading := loading s;
         lastUpdated := lastUpdated s; error := error s |}
  | setLoading b =>
      {| usersData := usersData s; stats := stats s; loading := b;
         lastUpdated := lastUpdated s; error := error s |}
  | setLastUpdated d =>
      {| usersData := usersData s; stats := stats s; loading := loading s;
         lastUpdated := Some d; error := error s |}
  | setError msg =>
      {| usersData := usersData s; stats := stats s; loading := loading s;
         lastUpdated := lastUpdated s; error := msg |}
  end.

Local Open Scope async_scope.

Definition loadDashboardData (env : Env) : Async Setter unit :=
  try_catch_finally
    (set (setLoading true) ;;
     set (setError "") ;;
     token <- await (AuthContext.getToken (auth env)) ;;
     if falsy_token token then
       navigate "/login" ;;
       return_
     else
       p1 <- fetch env (API_BASE_URL ++ "/moderator/users")
               ("Bearer " ++ template_token token) ;;
       p2 <- fetch env (API_BASE_URL ++ "/moderator/stats")
               ("Bearer " ++ template_token token) ;;
       ' (usersResponse, statsResponse) <- await (Promise_all2 p1 p2) ;;
       check_responses [usersResponse; statsResponse] ;;
       ' (usersDataResult, statsData) <-
           await (Promise_all2 (json usersResponse) (json statsResponse)) ;;
       set (setUsersData usersDataResult) ;;
       set (setStats statsData) ;;
       set (setLastUpdated (now env)))
    (fun err =>
       console_error "Failed to load moderator data:" err ;;
       set (setError "Failed to load moderator data. The server might be unavailable or you may not have access."))
    (set (setLoading false)).

Definition getColorClasses (value : number) (unit_ : string) : string :=
  if unit_ =? "ms" then
    if num_lt value (of_Z 350) then green
    else if num_lt value (of_Z 400) then yellow
    else red
  else
    if num_lt value (of_Z 60) then green
    else if num_lt value (of_Z 80) then yellow
    else red.

Definition colorClasses (stat : StatCard) : string :=
  getColorClasses (value stat) (unit_ stat).

(** The state the component is in after the updates of a log, applied in
    order. *)
Definition step (s : State) (e : Event Setter) : State :=
  match e with
  | Update u => apply u s
  | _ => s
  end.

Definition replay (log : list (Event Setter)) (s : State) : State :=
  fold_left step log s.

(** The published snapshot. *)
Definition snapshot (s : State) : Json * Json * option Z :=
  (usersData s, stats s, lastUpdated s).

Definition writes_snapshot (e : Event Setter) : bool :=
  match e with
  | Update (setUsersData _) | Update (setStats _) | Update (setLastUpdated _) => true
  | _ => false
  end.

Definition signals (o : Outcome) (e : Event Setter) : bool :=
  match o, e with
  | Unauthenticated, Navigate path => path =? "/login"
  | Unauthorized, Navigate path => path =? "/documind"
  | RemoteError, Update (setError msg) => truthy msg
  | SnapshotReplaced, e => writes_snapshot e
  | _, _ => false
  end.

Definition is_fetch (e : Event Setter) : bool :=
  match e with Fetch _ _ => true | _ => false end.

Definition log_of (env : Env) : list (Event Setter) :=
  snd (loadDashboardData env).

(** The endpoints in the order of the [responses] array. *)
Definition endpoints : list string :=
  [ (API_BASE_URL ++ "/moderator/users")%string;
    (API_BASE_URL ++ "/moderator/stats")%string ].

(** The segments a cycle's log is made of. *)
Definition started : list (Event Setter) :=
  [Update (setLoading true); Update (setError "")].

Definition failed (reason : string) : list (Event Setter) :=
  [ConsoleError "Failed to load moderator data:" reason;
   Update (setError "Failed to load moderator data. The server might be unavailable or you may not have access.")].

Definition finished : list (Event Setter) :=
  [Update (setLoading false)].

Definition requested (token : string) : list (Event Setter) :=
  map (fun url => Fetch url ("Bearer " ++ token)%string) endpoints.

(** What follows the loop, by how the loop completed. *)
Definition after_check (env : Env) (r1 r2 : Response) (c : Completion unit)
  : list (Event Setter) :=
  match c with
  | Normal _ =>
      match Promise_all2 (json r1) (json r2) with
      | Fulfilled (u, st) =>
          [Update (setUsersData u); Update (setStats st);
           Update (setLastUpdated (now env))]
      | Rejected reason => failed reason
      end
  | Thrown err => failed err
  | Returned => []
  end.

Definition sets_loading (e : Event Setter) : bool :=
  match e with Update (setLoading _) => true | _ => false end.

End ModeratorDashboard.

(* ================================================================== *)
(** * The four-resource page *)
(* ================================================================== *)

Module ModeratorDashboardExt.

Record State : Type := mkState {
  activeTab : string;
  users : Json;                    (* User[] *)
  sessions : Json;                 (* Session[] *)
  documents : Json;                (* Document[] *)
  stats : Json;                    (* SystemStats | null *)
  loading : bool;
  lastUpdated : option Z;          (* Date | null *)
  error : string
}.

Definition initial : State :=
  {| activeTab := "users"; users := JArray []; sessions := JArray [];
     documents := JArray []; stats := JNull; loading := true;
     lastUpdated := None; error := "" |}.

Inductive Setter : Type :=
| setActiveTab (t : string)
| setUsers (v : Json)
| setSessions (v : Json)
| setDocuments (v : Json)
| setStats (v : Json)
| setLoading (b : bool)
| setLastUpdated (d : Z)
| setError (msg : string).

Definition apply (u : Setter) (s : State) : State :=
  match u with
  | setActiveTab t =>
      {| activeTab := t; users := users s; sessions := sessions s;
         documents := documents s; stats := stats s; loading := loading s;
         lastUpdated := lastUpdated s; error := error s |}
  | setUsers v =>
      {| activeTab := activeTab s; users := v; sessions := sessions s;
         documents := documents s; stats := stats s; loading := loading s;
         lastUpdated := lastUpdated s; error := error s |}
  | setSessions v =>
      {| activeTab := activeTab s; users := users s; sessions := v;
         documents := documents s; stats := stats s; loading := loading s;
         lastUpdated := lastUpdated s; error := error s |}
  | setDocuments v =>
      {| activeTab := activeTab s; users := users s; sessions := sessions s;
         documents := v; stats := stats s; loading := loading s;
         lastUpdated := lastUpdated s; error := error s |}
  | setStats v =>
      {| activeTab := activeTab s; users := users s; sessions := sessions s;
         documents := documents s; stats := v; loading := loading s;
         lastUpdated := lastUpdated s; error := error s |}
  | setLoading b =>
      {| activeTab := activeTab s; users := users s; sessions := sessions s;
         documents := documents s; stats := stats s; loading := b;
         lastUpdated := lastUpdated s; error := error s |}
  | setLastUpdated d =>
      {| activeTab := activeTab s; users := users s; sessions := sessions s;
         documents := documents s; stats := stats s; loading := loading s;
         lastUpdated := Some d; error := error s |}
  | setError msg =>
      {| activeTab := activeTab s; users := users s; sessions := sessions s;
         documents := documents s; stats := stats s; loading := loading s;
         lastUpdated := lastUpdated s; error := msg |}
  end.

Local Open Scope async_scope.

Definition loadDashboardData (env : Env) : Async Setter unit :=
  try_catch_finally
    (set (setLoading true) ;;
     set (setError "") ;;
     token <- await (AuthContext.getToken (auth env)) ;;
     if falsy_token token then
       navigate "/login" ;;
       return_
     else
       p1 <- fetch env (API_BASE_URL ++ "/moderator/users")
               ("Bearer " ++ template_token token) ;;
       p2 <- fetch env (API_BASE_URL ++ "/moderator/sessions")
               ("Bearer " ++ template_token token) ;;
       p3 <- fetch env (API_BASE_URL ++ "/moderator/documents")
               ("Bearer " ++ template_token token) ;;
       p4 <- fetch env (API_BASE_URL ++ "/moderator/stats")
               ("Bearer " ++ template_token token) ;;
       ' (usersResponse, sessionsResponse, docsResponse, statsResponse) <-
           await (Promise_all4 p1 p2 p3 p4) ;;
       check_responses
         [usersResponse; sessionsResponse; docsResponse; statsResponse] ;;
       ' (usersData, sessionsData, docsData, statsData) <-
           await (Promise_all4 (json usersResponse) (json sessionsResponse)
                    (json docsResponse) (json statsResponse)) ;;
       set (setUsers usersData) ;;
       set (setSessions sessionsData) ;;
       set (setDocuments docsData) ;;
       set (setStats statsData) ;;
       set (setLastUpdated (now env)))
    (fun err =>
       console_error "Failed to load moderator data:" err ;;
       set (setError "Failed to load moderator data. The server might be unavailable or you may not have access."))
    (set (setLoading false)).

Definition getColorClasses (value : number) (unit_ : string) : string :=
  if unit_ =? "ms" then
    if num_lt value (of_Z 150) then green
    else if num_lt value (of_Z 250) then yellow
    else red
  else
    if num_lt value (of_Z 60) then green
    else if num_lt value (of_Z 80) then yellow
    else red.

Definition colorClasses (stat : StatCard) : string :=
  getColorClasses (value stat) (unit_ stat).

Definition step (s : State) (e : Event Setter) : State :=
  match e with
  | Update u => apply u s
  | _ => s
  end.

Definition replay (log : list (Event Setter)) (s : State) : State :=
  fold_left step log s.

(** The published snapshot. *)
Definition snapshot (s : State) : Json * Json * Json * Json * option Z :=
  (users s, sessions s, documents s, stats s, lastUpdated s).

Definition writes_snapshot (e : Event Setter) : bool :=
  match e with
  | Update (setUsers _) | Update (setSessions _) | Update (setDocuments _)
  | Update (setStats _) | Update (setLastUpdated _) => true
  | _ => false
  end.

Definition signals (o : Outcome) (e : Event Setter) : bool :=
  match o, e with
  | Unauthenticated, Navigate path => path =? "/login"
  | Unauthorized, Navigate path => path =? "/documind"
  | RemoteError, Update (setError msg) => truthy msg
  | SnapshotReplaced, e => writes_snapshot e
  | _, _ => false
  end.

Definition is_fetch (e : Event Setter) : bool :=
  match e with Fetch _ _ => true | _ => false end.

Definition log_of (env : Env) : list (Event Setter) :=
  snd (loadDashboardData env).

(** The endpoints in the order of the [responses] array. *)
Definition endpoints : list string :=
  [ (API_BASE_URL ++ "/moderator/users")%string;
    (API_BASE_URL ++ "/moderator/sessions")%string;
    (API_BASE_URL ++ "/moderator/documents")%string;
    (API_BASE_URL ++ "/moderator/stats")%string ].

(** The segments a cycle's log is made of. *)
Definition started : list (Event Setter) :=
  [Update (setLoading true); Update (setError "")].

Definition failed (reason : string) : list (Event Setter) :=
  [ConsoleError "Failed to load moderator data:" reason;
   Update (setError "Failed to load moderator data. The server might be unavailable or you may not have access.")].

Definition finished : list (Event Setter) :=
  [Update (setLoading false)].

Definition requested (token : string) : list (Event Setter) :=
  map (fun url => Fetch url ("Bearer " ++ token)%string) endpoints.

(** What follows the loop, by how the loop completed. *)
Definition after_check (env : Env) (r1 r2 r3 r4 : Response)
  (c : Completion unit) : list (Event Setter) :=
  match c with
  | Normal _ =>
      match Promise_all4 (json r1) (json r2) (json r3) (json r4) with
      | Fulfilled (u, se, d, st) =>
          [Update (setUsers u); Update (setSessions se);
           Update (setDocuments d); Update (setStats st);
           Update (setLastUpdated (now env))]
      | Rejected reason => failed reason
      end
  | Thrown err => failed err
  | Returned => []
  end.

Definition sets_loading (e : Event Setter) : bool :=
  match e with Update (setLoading _) => true | _ => false end.

End ModeratorDashboardExt.

(** Those of the outcomes [among] that a log signals. *)
Definition outcomes_among {E : Type} (among : list Outcome)
  (signals : Outcome -> E -> bool) (log : list E) : list Outcome :=
  filter (fun o => existsb (signals o) log) among.

(** The outcomes a log signals, each listed once. *)
Definition outcomes {E : Type} (signals : Outcome -> E -> bool) (log : list E)
  : list Outcome :=
  outcomes_among [Unauthenticated; Unauthorized; RemoteError; SnapshotReplaced]
    signals log.

(** The responses the service gives to a cycle that carries [token], one per
    endpoint, when every request is answered. *)
Fixpoint answers (env : Env) (token : string) (urls : list string)
  : option (list Response) :=
  match urls with
  | [] => Some []
  | url :: rest =>
      match fetch_oracle env url ("Bearer " ++ token), answers env token rest with
      | Fulfilled r, Some rs => Some (r :: rs)
      | _, _ => None
      end
  end.

Definition unauthorized (r : Response) : bool :=
  includesZ [401; 403]%Z (status r).

(** The cards of the percentage gauges. *)
Definition percentage_gauges (stats : SystemStats) : list StatCard :=
  filter (fun stat => unit_ stat =? "%") (stat_cards stats).

(** The tier of a latency under the breakpoints [lo] and [hi], as the
    specification words it: nominal below [lo], elevated from [lo] up to
    [hi], critical from [hi] on. *)
Definition latency_tier (lo hi : Q) (v : number) : SeverityTier :=
  if num_lt v (Finite lo) then nominal
  else if num_lt v (Finite hi) then elevated
  else critical.

(** A classifier follows the calibration [lo]/[hi] when called with the
    unit [u]. *)
Definition calibrated (classify : number -> string -> string)
  (u : string) (lo hi : Q) : Prop :=
  forall v, classify v u = tier_classes (latency_tier lo hi v).

(** Some argument of the classifier selects the calibration [lo]/[hi]. *)
Definition selectable (classify : number -> string -> string) (lo hi : Q)
  : Prop :=
  exists u, calibrated classify u lo hi.

(** A response passes the loop when it is [ok]. *)
Definition passes (r : Response) : Prop := ok r = true.

(** ** Sample worlds *)

Definition moderator : AuthContext.User :=
  AuthContext.mkUser "uid-1" (Some "akhyarahmad919@gmail.com").

Definition signed_in : AuthContext.Auth :=
  AuthContext.mkAuth (Some moderator) (fun _ => Fulfilled "token-1").

Definition signed_out : AuthContext.Auth :=
  AuthContext.mkAuth None (fun _ => Fulfilled "token-1").

(** A service that answers the users endpoint with one response and every
    other endpoint with another. *)
Definition service (users others : Response)
  : string -> string -> Settled Response :=
  fun url _ =>
    if url =? (API_BASE_URL ++ "/moderator/users")
    then Fulfilled users else Fulfilled others.

Definition answer (code : Z) (body : Settled Json) : Response :=
  {| status := code; json := body |}.

Definition sample_stats : Json :=
  JObject [("cpu_usage", JNumber (of_Z 85)); ("gpu_usage", JNumber (of_Z 10));
           ("ram_usage", JNumber (of_Z 40)); ("storage_usage", JNumber (of_Z 70));
           ("avg_response_time", JNumber (of_Z 120))].

(** No identity is present. *)
Definition world_signed_out : Env :=
  {| auth := signed_out;
     fetch_oracle := service (answer 200 (Fulfilled (JArray [])))
                             (answer 200 (Fulfilled sample_stats));
     now := 1000 |}.

(** The users endpoint answers 401, the others 200. *)
Definition world_users_401 : Env :=
  {| auth := signed_in;
     fetch_oracle := service (answer 401 (Fulfilled JNull))
                             (answer 200 (Fulfilled sample_stats));
     now := 1000 |}.

(** The users endpoint answers 500, the others 401. *)
Definition world_500_then_401 : Env :=
  {| auth := signed_in;
     fetch_oracle := service (answer 500 (Fulfilled JNull))
                             (answer 401 (Fulfilled JNull));
     now := 1000 |}.

(** Every endpoint answers 200, the users body does not parse. *)
Definition world_bad_body : Env :=
  {| auth := signed_in;
     fetch_oracle := service (answer 200 (Rejected "Unexpected token < in JSON"))
                             (answer 200 (Fulfilled sample_stats));
     now := 1000 |}.

(** Every endpoint answers 200 with a body that parses. *)
Definition world_all_200 : Env :=
  {| auth := signed_in;
     fetch_oracle := service (answer 200 (Fulfilled (JArray [])))
                             (answer 200 (Fulfilled sample_stats));
     now := 1000 |}.

(** The token a cycle goes on with: [getToken] fulfilled with a string
    that passes the [if (!token)] guard. *)
Definition usable_token (env : Env) : option string :=
  match AuthContext.getToken (auth env) with
  | Fulfilled (Some t) => if truthy t then Some t else None
  | _ => None
  end.

(** A user is present and the provider fails to issue a token. *)
Definition world_token_unavailable : Env :=
  {| auth := AuthContext.mkAuth (Some moderator)
               (fun _ => Rejected "auth/network-request-failed");
     fetch_oracle := service (answer 200 (Fulfilled (JArray [])))
                             (answer 200 (Fulfilled sample_stats));
     now := 1000 |}.

(* ================================================================== *)
(** * What the components render *)
(* ================================================================== *)

(** ** [AuthProvider] *)

(** [{!loading && children}]: whether the children are rendered. *)
Definition renders_children (s : AuthContext.AuthState) : bool :=
  negb (AuthContext.loading s).

(** ** The dashboard pages *)

(** The three returns of the component: the spinner, the "Connection
    Error" screen with its message and Retry button, and the dashboard
    markup, [Content] being what that markup reads of the state.  [Panel]
    says which return is reached and on what; evaluating the markup is left
    to React and is not modelled here: on data of another shape than the
    page's interfaces declare (a [users] that is no array, an object where
    text is expected) it throws and nothing is drawn. *)
Inductive Screen (Content : Type) : Type :=
| LoadingScreen
| ConnectionError (error : string)
| Panel (content : Content).
Arguments LoadingScreen {Content}.
Arguments ConnectionError {Content} error.
Arguments Panel {Content} content.

(** [s.split(sep)] for a one-character separator. *)
Fixpoint split (sep : Ascii.ascii) (s : string) : list string :=
  match s with
  | EmptyString => [EmptyString]
  | String c rest =>
      if Ascii.eqb c sep then EmptyString :: split sep rest
      else
        match split sep rest with
        | first :: others => String c first :: others
        | [] => [String c EmptyString]
        end
  end.

(** [`${parts[i]}`]: an index out of range reads [undefined]. *)
Definition template_index (parts : list string) (i : nat) : string :=
  match nth_error parts i with
  | Some part => part
  | None => "undefined"
  end.

(** The [className] of the value: [`text-2xl font-bold
    ${colorClasses.split(' ')[0]}`]. *)
Definition value_className (colorClasses : string) : string :=
  "text-2xl font-bold " ++ template_index (split " "%char colorClasses) 0.

(** The [className] of the bar: [`h-full ${colorClasses.split(' ')[1]}
    transition-all duration-500`]. *)
Definition bar_className (colorClasses : string) : string :=
  "h-full " ++ template_index (split " "%char colorClasses) 1
  ++ " transition-all duration-500".

(** The colour word of a tier. *)
Definition tier_colour (t : SeverityTier) : string :=
  match t with
  | nominal => "green"
  | elevated => "yellow"
  | critical => "red"
  end.

Definition tier_rank (t : SeverityTier) : nat :=
  match t with
  | nominal => 0
  | elevated => 1
  | critical => 2
  end.

Module ModeratorDashboardRender.
Import ModeratorDashboard.

(** The returns of the two-resource page; its dashboard reads [stats]. *)
Definition render (s : State) : Screen Json :=
  if loading s then LoadingScreen
  else if truthy (error s) then ConnectionError (error s)
  else Panel (stats s).

End ModeratorDashboardRender.

Module ModeratorDashboardExtRender.
Import ModeratorDashboardExt.

(** The array the navigation maps over: tab id and name. *)
Definition tabs : list (string * string) :=
  [ ("users", "Users"); ("documents", "Documents"); ("sessions", "Sessions") ].

(** [onClick={() => setActiveTab(tab.id)}] *)
Definition click (tab : string * string) : Setter := setActiveTab (fst tab).

(** The tab buttons whose test [activeTab === tab.id] holds. *)
Definition active_tabs (s : State) : list (string * string) :=
  filter (fun tab => activeTab s =? fst tab) tabs.

(** What the three conditional blocks of [<main>] compare [activeTab]
    with, in their order: [activeTab === 'users' && ...], then
    ['documents'], then ['sessions']. *)
Definition table_blocks : list string := ["users"; "documents"; "sessions"].

(** The blocks whose guard holds. *)
Definition selected_blocks (s : State) : list string :=
  filter (fun id => activeTab s =? id) table_blocks.

(** What the dashboard markup reads of the state. *)
Record Content : Type := mkContent {
  tab : string;                    (* activeTab *)
  overview : Json;                 (* stats *)
  listed_users : Json;             (* users *)
  listed_documents : Json;         (* documents *)
  listed_sessions : Json           (* sessions *)
}.

(** The returns of the four-resource page. *)
Definition render (s : State) : Screen Content :=
  if loading s then LoadingScreen
  else if truthy (error s) then ConnectionError (error s)
  else Panel {| tab := activeTab s; overview := stats s;
                listed_users := users s; listed_documents := documents s;
                listed_sessions := sessions s |}.

Definition sets_tab (e : Event Setter) : bool :=
  match e with Update (setActiveTab _) => true | _ => false end.

(** The states of the page: it starts in [initial], a tab is clicked, or
    a load cycle has run, in whole or up to some point.  (The buttons are on
    screen only with the dashboard; a click is allowed here in any state,
    which can only add states.) *)
Inductive reachable : State -> Prop :=
| reach_initial : reachable initial
| reach_click s tab :
    reachable s -> In tab tabs -> reachable (apply (click tab) s)
| reach_cycle s env p q :
    reachable s -> log_of env = p ++ q -> reachable (replay p s).

End ModeratorDashboardExtRender.

(** ** Proof automation *)

(** Runs the monad's operations, leaving strings and the loop alone. *)
Ltac run_async :=
  cbv beta iota zeta delta
    [try_catch_finally bind set emit navigate fetch await ret throw return_
     console_error Promise_all2 Promise_all4 fst snd
     falsy_token template_token negb].

(** Equality of two logs written with different bracketing. *)
Ltac log_eq :=
  cbv delta [ModeratorDashboard.started ModeratorDashboard.requested
             ModeratorDashboard.failed ModeratorDashboard.finished
             ModeratorDashboard.endpoints
             ModeratorDashboardExt.started ModeratorDashboardExt.requested
             ModeratorDashboardExt.failed ModeratorDashboardExt.finished
             ModeratorDashboardExt.endpoints];
  cbn [map app]; repeat rewrite <- app_assoc; cbn [app]; reflexivity.

(* ================================================================== *)
(** * Facts about values *)
(* ================================================================== *)

Lemma Qltb_lt (a b : Q) : Qltb a b = true <-> (a < b)%Q.
Proof.
  unfold Qltb. rewrite Qlt_alt. destruct (a ?= b)%Q; split; congruence.
Qed.

Lemma Qltb_ge (a b : Q) : Qltb a b = false <-> (b <= a)%Q.
Proof.
  split; intro H.
  - apply Qnot_lt_le. intro L. apply Qltb_lt in L. congruence.
  - destruct (Qltb a b) eqn:E; [| reflexivity].
    apply Qltb_lt in E. exfalso. exact (Qle_not_lt _ _ H E).
Qed.

Lemma includes_In (xs : list string) (x : string) :
  includes xs x = true <-> In x xs.
Proof.
  unfold includes. rewrite existsb_exists. split.
  - intros [y [Hin Heq]]. apply String.eqb_eq in Heq. now subst.
  - intro Hin. exists x. split; [assumption | apply String.eqb_refl].
Qed.

Lemma ok_not_unauthorized (r : Response) :
  ok r = true -> includesZ [401; 403]%Z (status r) = false.
Proof.
  unfold ok, includesZ. cbn [existsb]. intro H.
  apply andb_true_iff in H. destruct H as [_ H]. apply Z.leb_le in H.
  rewrite 2 orb_false_iff. repeat split; try reflexivity; apply Z.eqb_neq; lia.
Qed.

(* ================================================================== *)
(** * The session state *)
(* ================================================================== *)

Section Session.
Import AuthContext.

Lemma isModerator_notify (s : AuthState) (user : option User) :
  isModerator (notify s user) = is_moderator_user user.
Proof.
  unfold notify, onAuthStateChanged_callback.
  destruct (is_moderator_user user); reflexivity.
Qed.

Lemma currentUser_notify (s : AuthState) (user : option User) :
  currentUser (notify s user) = user.
Proof.
  unfold notify, onAuthStateChanged_callback.
  destruct (is_moderator_user user); reflexivity.
Qed.

Lemma loading_notify (s : AuthState) (user : option User) :
  loading (notify s user) = false.
Proof. reflexivity. Qed.

Lemma In_MODERATOR_EMAILS (e : string) :
  In e MODERATOR_EMAILS <->
  e = "akhyarahmad919@gmail.com" \/ e = "ansuthisis789@gmail.com".
Proof.
  unfold MODERATOR_EMAILS. cbn [In]. intuition congruence.
Qed.

Lemma moderator_email_truthy (e : string) :
  In e MODERATOR_EMAILS -> truthy e = true.
Proof.
  intro H. apply In_MODERATOR_EMAILS in H. destruct H; subst; reflexivity.
Qed.

(** C3. For a notification that carries an identity, the resulting state
    has [isModerator = true] exactly when the identity has an email that
    is, character for character, an entry of the allowlist
    [MODERATOR_EMAILS]; the allowlist is the fixed two-entry list that
    contains "akhyarahmad919@gmail.com". *)
Theorem C3_role_derivation :
  forall (s : AuthState) (u : User),
    (isModerator (notify s (Some u)) = true <->
     exists e, email u = Some e /\ In e MODERATOR_EMAILS)
    /\ In "akhyarahmad919@gmail.com" MODERATOR_EMAILS
    /\ (forall e, In e MODERATOR_EMAILS <->
                  e = "akhyarahmad919@gmail.com" \/
                  e = "ansuthisis789@gmail.com").
Proof.
  intros s u. split; [| split].
  - rewrite isModerator_notify. unfold is_moderator_user.
    destruct (email u) as [e |]; split.
    + intro H. apply andb_true_iff in H. destruct H as [_ H].
      exists e. split; [reflexivity | now apply includes_In].
    + intros [e' [He Hin]]. injection He as <-.
      apply andb_true_iff. split;
        [now apply moderator_email_truthy | now apply includes_In].
    + discriminate.
    + intros [e' [He _]]. discriminate.
  - left. reflexivity.
  - exact In_MODERATOR_EMAILS.
Qed.

(** An address that differs from an entry only in case is not a
    moderator's, nor is an unlisted one; the listed one is. *)
Example role_examples :
  let state_for e := notify initial (Some (mkUser "uid-1" (Some e))) in
  isModerator (state_for "akhyarahmad919@gmail.com") = true /\
  isModerator (state_for "Akhyarahmad919@gmail.com") = false /\
  isModerator (state_for "AKHYARAHMAD919@GMAIL.COM") = false /\
  isModerator (state_for "someone@example.com") = false /\
  isModerator (notify initial (Some (mkUser "uid-1" None))) = false.
Proof. repeat split. Qed.

Lemma loading_history (s : AuthState) (ns : list (option User)) :
  map loading (history s ns) = loading s :: repeat false (length ns).
Proof.
  revert s. induction ns as [| u ns IH]; intro s; cbn [history map length repeat].
  - reflexivity.
  - rewrite IH. rewrite loading_notify. reflexivity.
Qed.

Lemma count_steps_cons (a b x y : bool) (l : list bool) :
  count_steps a b (x :: y :: l) =
  (if Bool.eqb x a && Bool.eqb y b then 1 else 0) + count_steps a b (y :: l).
Proof. reflexivity. Qed.

Lemma count_steps_all_false (a : bool) (n : nat) :
  count_steps a true (repeat false n) = 0
  /\ count_steps true a (repeat false n) = 0.
Proof.
  induction n as [| n [IH1 IH2]]; [split; reflexivity |].
  destruct n as [| n]; [split; reflexivity |].
  change (repeat false (S (S n))) with (false :: false :: repeat false n).
  change (repeat false (S n)) with (false :: repeat false n) in IH1, IH2.
  rewrite 2 count_steps_cons, IH1, IH2.
  destruct a; split; reflexivity.
Qed.

Lemma last_cons_default {A} (x : A) (l : list A) (d d' : A) :
  last (x :: l) d = last (x :: l) d'.
Proof.
  revert x. induction l as [| y l IH]; intro x; [reflexivity |].
  change (last (y :: l) d = last (y :: l) d'). apply IH.
Qed.

Lemma run_history_last (s : AuthState) (ns : list (option User)) :
  last (history s ns) s = run s ns.
Proof.
  revert s. induction ns as [| u ns IH]; intro s; [reflexivity |].
  change (run s (u :: ns)) with (run (notify s u) ns). rewrite <- IH.
  cbn [history]. destruct ns as [| u' ns]; [reflexivity |].
  cbn [history]. apply (last_cons_default (notify s u)).
Qed.

(** C8. The [loading] flag of the provider starts true, is false after
    the first notification and after every later one: along the states
    the provider goes through it steps from true to false at most once
    and never from false to true. *)
Theorem C8_loading_monotone :
  forall (ns : list (option User)),
    let flags := map loading (history initial ns) in
    flags = true :: repeat false (length ns)
    /\ count_steps true false flags <= 1
    /\ count_steps false true flags = 0
    /\ (forall s u, loading (notify s u) = false).
Proof.
  intro ns. cbv zeta. rewrite loading_history. cbn [loading initial].
  assert (Hsteps : count_steps true false (true :: repeat false (length ns)) <= 1
                   /\ count_steps false true (true :: repeat false (length ns)) = 0).
  { destruct ns as [| u ns]; [split; cbn; lia |].
    change (repeat false (length (u :: ns)))
      with (false :: repeat false (length ns)).
    rewrite 2 count_steps_cons.
    change (false :: repeat false (length ns))
      with (repeat false (S (length ns))).
    destruct (count_steps_all_false false (S (length ns))) as [H1 H2].
    rewrite H1, H2. split; cbn; lia. }
  destruct Hsteps as [Hdown Hup].
  split; [reflexivity | split; [exact Hdown | split; [exact Hup |]]].
  intros s u. apply loading_notify.
Qed.

Lemma reachable_run (ns : list (option User)) (s : AuthState) :
  reachable s -> reachable (run s ns).
Proof.
  revert s. induction ns as [| u ns IH]; intros s H; [exact H |].
  cbn [run fold_left]. apply IH. now constructor.
Qed.

Lemma reachable_is_run (s : AuthState) :
  reachable s -> exists ns, s = run initial ns.
Proof.
  induction 1 as [| s u _ [ns ->]].
  - now exists [].
  - exists (ns ++ [u]). unfold run. now rewrite fold_left_app.
Qed.

(** C9. In every reachable session state, the start state and the state
    after any sequence of notifications, an absent identity (no current
    user, or a current user without an email) comes with
    [isModerator = false]. *)
Theorem C9_absent_identity_not_moderator :
  forall (s : AuthState),
    reachable s -> absent_identity s -> isModerator s = false.
Proof.
  intros s Hreach. destruct Hreach as [| s u _].
  - reflexivity.
  - unfold absent_identity. rewrite currentUser_notify, isModerator_notify.
    unfold is_moderator_user. destruct u as [u |]; [| reflexivity].
    intros ->. reflexivity.
Qed.

(** The invariant is one of whole callback runs: after the first of the
    three updates alone, a moderator who signs out is for a moment absent
    and still a moderator. *)
Example first_update_alone :
  let before := notify initial (Some (mkUser "uid-1" (Some "akhyarahmad919@gmail.com"))) in
  isModerator before = true
  /\ currentUser (setCurrentUser None before) = None
  /\ isModerator (setCurrentUser None before) = true
  /\ isModerator (notify before None) = false.
Proof. repeat split. Qed.

Lemma C9_witness :
  let signed_out :=
    run initial [Some (mkUser "uid-1" (Some "akhyarahmad919@gmail.com")); None] in
  reachable signed_out /\ absent_identity signed_out
  /\ isModerator signed_out = false.
Proof.
  cbv zeta. split; [| split].
  - apply reachable_run. constructor.
  - exact I.
  - apply C9_absent_identity_not_moderator.
    + apply reachable_run. constructor.
    + exact I.
Defined.

End Session.

(* ================================================================== *)
(** * Severity classification *)
(* ================================================================== *)

Section Classification.
Local Open Scope Q_scope.

Lemma num_lt_finite (v : Q) (z : Z) :
  num_lt (Finite v) (of_Z z) = true <-> v < inject_Z z.
Proof. apply Qltb_lt. Qed.

Lemma num_lt_finite_ge (v : Q) (z : Z) :
  num_lt (Finite v) (of_Z z) = false <-> inject_Z z <= v.
Proof. apply Qltb_ge. Qed.

(** The percentage branch of both pages, on a finite value. *)
Lemma percent_branch (classify : number -> string -> string) (v : Q) :
  (forall x, classify x "%" =
             if num_lt x (of_Z 60) then green
             else if num_lt x (of_Z 80) then yellow else red) ->
  (v < 60 -> classify (Finite v) "%" = green)
  /\ (60 <= v < 80 -> classify (Finite v) "%" = yellow)
  /\ (80 <= v -> classify (Finite v) "%" = red).
Proof.
  intro Hdef. rewrite Hdef. split; [| split].
  - intro H. apply (num_lt_finite v 60) in H. now rewrite H.
  - intros [Hlo Hhi].
    apply (num_lt_finite_ge v 60) in Hlo. apply (num_lt_finite v 80) in Hhi.
    now rewrite Hlo, Hhi.
  - intro H.
    assert (H60 : inject_Z 60 <= v)
      by (apply Qle_trans with (y := inject_Z 80); [discriminate | exact H]).
    apply (num_lt_finite_ge v 60) in H60. apply (num_lt_finite_ge v 80) in H.
    now rewrite H60, H.
Qed.

(** The percentage gauges are the first four cards: CPU, GPU, RAM and
    storage; the latency card is the only other one. *)
Lemma percentage_gauges_eq (stats : SystemStats) :
  percentage_gauges stats =
  [ {| label := "CPU Usage"; value := cpu_usage stats; unit_ := "%"; color := "blue" |};
    {| label := "GPU Usage"; value := gpu_usage stats; unit_ := "%"; color := "purple" |};
    {| label := "RAM Usage"; value := ram_usage stats; unit_ := "%"; color := "green" |};
    {| label := "Storage"; value := storage_usage stats; unit_ := "%"; color := "orange" |} ].
Proof. reflexivity. Qed.

Lemma percentage_gauge_unit (stats : SystemStats) (stat : StatCard) :
  In stat (percentage_gauges stats) -> unit_ stat = "%"%string.
Proof.
  unfold percentage_gauges. rewrite filter_In. intros [_ H].
  now apply String.eqb_eq in H.
Qed.

(** C4. For each percentage gauge (CPU, GPU, RAM, storage) and each value
    between 0 and 100, the classes computed for its card are those of
    nominal when the value is below 60, of elevated from 60 up to (not
    including) 80, and of critical from 80 on; in both pages. *)
Theorem C4_percentage_tiers :
  forall (stats : SystemStats) (stat : StatCard) (v : Q),
    In stat (percentage_gauges stats) ->
    value stat = Finite v ->
    0 <= v <= 100 ->
    (v < 60 ->
       ModeratorDashboard.colorClasses stat = tier_classes nominal
       /\ ModeratorDashboardExt.colorClasses stat = tier_classes nominal)
    /\ (60 <= v < 80 ->
       ModeratorDashboard.colorClasses stat = tier_classes elevated
       /\ ModeratorDashboardExt.colorClasses stat = tier_classes elevated)
    /\ (80 <= v ->
       ModeratorDashboard.colorClasses stat = tier_classes critical
       /\ ModeratorDashboardExt.colorClasses stat = tier_classes critical).
Proof.
  intros stats stat v Hin Hval _.
  unfold ModeratorDashboard.colorClasses, ModeratorDashboardExt.colorClasses.
  rewrite (percentage_gauge_unit stats stat Hin), Hval.
  destruct (percent_branch ModeratorDashboard.getColorClasses v) as (R1 & R2 & R3);
    [reflexivity |].
  destruct (percent_branch ModeratorDashboardExt.getColorClasses v) as (E1 & E2 & E3);
    [reflexivity |].
  cbn [tier_classes]. repeat split; auto.
Qed.

Lemma C4_witness :
  let stats := {| cpu_usage := Finite 85; gpu_usage := Finite (599 # 10);
                  ram_usage := Finite 60; storage_usage := Finite (799 # 10);
                  avg_response_time := Finite 120 |} in
  let cpu := {| label := "CPU Usage"; value := Finite 85; unit_ := "%";
                color := "blue" |} in
  In cpu (percentage_gauges stats)
  /\ ModeratorDashboard.colorClasses cpu = tier_classes critical
  /\ ModeratorDashboardExt.colorClasses cpu = tier_classes critical.
Proof.
  intros stats cpu. split; [left; reflexivity |].
  refine (proj2 (proj2 (C4_percentage_tiers stats cpu 85 _ _ _)) _).
  - left. reflexivity.
  - reflexivity.
  - split; discriminate.
  - discriminate.
Defined.

(** The boundary values of a percentage gauge, in both pages. *)
Example percentage_boundaries :
  map (fun v => ModeratorDashboard.getColorClasses (Finite v) "%")
      [599 # 10; 60; 799 # 10; 80; 0; 100]
  = map tier_classes [nominal; elevated; elevated; critical; nominal; critical]
  /\ map (fun v => ModeratorDashboardExt.getColorClasses (Finite v) "%")
      [599 # 10; 60; 799 # 10; 80; 0; 100]
  = map tier_classes [nominal; elevated; elevated; critical; nominal; critical].
Proof. split; reflexivity. Qed.

(** The latency branch of each page: fixed breakpoints. *)
Lemma latency_reduced :
  calibrated ModeratorDashboard.getColorClasses "ms" 350 400.
Proof.
  intro v. unfold ModeratorDashboard.getColorClasses, latency_tier, of_Z, inject_Z.
  cbn [String.eqb Ascii.eqb Bool.eqb].
  destruct (num_lt v (Finite (350 # 1))); [reflexivity |].
  destruct (num_lt v (Finite (400 # 1))); reflexivity.
Qed.

Lemma latency_extended :
  calibrated ModeratorDashboardExt.getColorClasses "ms" 150 250.
Proof.
  intro v. unfold ModeratorDashboardExt.getColorClasses, latency_tier, of_Z, inject_Z.
  cbn [String.eqb Ascii.eqb Bool.eqb].
  destruct (num_lt v (Finite (150 # 1))); [reflexivity |].
  destruct (num_lt v (Finite (250 # 1))); reflexivity.
Qed.

(** With any unit other than "ms" both pages take the percentage branch. *)
Lemma other_units_reduced (v : number) (u : string) :
  u <> "ms"%string ->
  ModeratorDashboard.getColorClasses v u = ModeratorDashboard.getColorClasses v "%".
Proof.
  intro H. apply String.eqb_neq in H.
  unfold ModeratorDashboard.getColorClasses. now rewrite H.
Qed.

Lemma other_units_extended (v : number) (u : string) :
  u <> "ms"%string ->
  ModeratorDashboardExt.getColorClasses v u = ModeratorDashboardExt.getColorClasses v "%".
Proof.
  intro H. apply String.eqb_neq in H.
  unfold ModeratorDashboardExt.getColorClasses. now rewrite H.
Qed.

(** With any unit other than "ms" both pages classify by 60 and 80. *)
Lemma other_units_percent (u : string) :
  u <> "ms"%string ->
  calibrated ModeratorDashboard.getColorClasses u 60 80
  /\ calibrated ModeratorDashboardExt.getColorClasses u 60 80.
Proof.
  intro Hu. split; intro v.
  - rewrite (other_units_reduced v u Hu).
    unfold ModeratorDashboard.getColorClasses, latency_tier, of_Z, inject_Z.
    cbn [String.eqb Ascii.eqb Bool.eqb].
    destruct (num_lt v (Finite (60 # 1))); [reflexivity |].
    destruct (num_lt v (Finite (80 # 1))); reflexivity.
  - rewrite (other_units_extended v u Hu).
    unfold ModeratorDashboardExt.getColorClasses, latency_tier, of_Z, inject_Z.
    cbn [String.eqb Ascii.eqb Bool.eqb].
    destruct (num_lt v (Finite (60 # 1))); [reflexivity |].
    destruct (num_lt v (Finite (80 # 1))); reflexivity.
Qed.

(** No argument of the four-resource page's classifier selects the 350/400
    calibration: a latency of 300 ms is critical there, as the page's
    comment has it (red from 250 ms on), whatever the unit passed. *)
Lemma C2_no_argument_selects :
  ~ selectable ModeratorDashboardExt.getColorClasses 350 400.
Proof.
  intros [u H]. specialize (H (Finite 300)).
  destruct (String.eqb_spec u "ms") as [-> | Hu].
  - discriminate H.
  - rewrite (other_units_extended _ _ Hu) in H. discriminate H.
Qed.

(** C2 (as the code has it). The breakpoints of the latency gauge are no
    parameters: each page's classifier takes the value and the unit and
    nothing else, and classifies every value given with unit "ms" against
    two constants of its code, the same at every call (150 and 250 in the
    four-resource page); with any other unit it classifies by 60 and 80,
    so no argument selects another latency calibration. *)
Theorem C2_no_breakpoint_parameter :
  (exists lo hi : Q, calibrated ModeratorDashboard.getColorClasses "ms" lo hi)
  /\ calibrated ModeratorDashboardExt.getColorClasses "ms" 150 250
  /\ (forall u : string,
        u <> "ms"%string ->
        calibrated ModeratorDashboard.getColorClasses u 60 80
        /\ calibrated ModeratorDashboardExt.getColorClasses u 60 80).
Proof.
  split; [| split].
  - exists 350, 400. exact latency_reduced.
  - exact latency_extended.
  - exact other_units_percent.
Qed.

(** C10. With the unit "%" the classifiers of the two pages agree on every
    number; they can differ only when the unit is "ms", and there they do
    differ on some values (200 ms is nominal in one, elevated in the
    other). *)
Theorem C10_classifiers_agree_on_percent :
  (forall v : number,
     ModeratorDashboard.getColorClasses v "%"
     = ModeratorDashboardExt.getColorClasses v "%")
  /\ (forall (v : number) (u : string),
        ModeratorDashboard.getColorClasses v u
        <> ModeratorDashboardExt.getColorClasses v u -> u = "ms"%string)
  /\ (exists v : number,
        ModeratorDashboard.getColorClasses v "ms"
        <> ModeratorDashboardExt.getColorClasses v "ms").
Proof.
  split; [| split].
  - intro v. reflexivity.
  - intros v u Hdiff. destruct (String.eqb_spec u "ms") as [-> | Hu];
      [reflexivity |].
    exfalso. apply Hdiff.
    now rewrite (other_units_reduced _ _ Hu), (other_units_extended _ _ Hu).
  - exists (Finite 200). discriminate.
Qed.

(** Where the two calibrations part: below 150 and from 400 on the pages
    agree on a latency, in between they do not. *)
Example latency_disagreement :
  map (fun v => ModeratorDashboard.getColorClasses (Finite v) "ms")
      [100; 150; 200; 250; 349; 350; 399; 400]
  = [green; green; green; green; green; yellow; yellow; red]
  /\ map (fun v => ModeratorDashboardExt.getColorClasses (Finite v) "ms")
      [100; 150; 200; 250; 349; 350; 399; 400]
  = [green; yellow; yellow; red; red; red; red; red].
Proof. split; reflexivity. Qed.

End Classification.

(* ================================================================== *)
(** * The response loop *)
(* ================================================================== *)

Section ResponseLoop.
Context {Setter : Type}.

Lemma check_responses_cons (r : Response) (rest : list Response) :
  @check_responses Setter (r :: rest) =
  if unauthorized r then (Returned, [Navigate "/documind"])
  else if ok r then check_responses rest
  else (Thrown ("HTTP error! status: " ++ string_of_Z (status r))%string, []).
Proof.
  unfold unauthorized. cbn [check_responses].
  destruct (includesZ [401; 403]%Z (status r)); [reflexivity |].
  destruct (ok r); reflexivity.
Qed.

Lemma check_responses_pass (rs : list Response) :
  Forall passes rs -> @check_responses Setter rs = (Normal tt, []).
Proof.
  induction 1 as [| r rs Hr _ IH]; [reflexivity |].
  rewrite check_responses_cons. unfold passes in Hr.
  unfold unauthorized. rewrite (ok_not_unauthorized r Hr), Hr. exact IH.
Qed.

Lemma check_responses_skip (pre rest : list Response) :
  Forall passes pre ->
  @check_responses Setter (pre ++ rest) = check_responses rest.
Proof.
  induction 1 as [| r rs Hr _ IH]; [reflexivity |].
  cbn [app]. rewrite check_responses_cons. unfold passes in Hr.
  unfold unauthorized. rewrite (ok_not_unauthorized r Hr), Hr. exact IH.
Qed.

Lemma check_responses_unauthorized (pre : list Response) (r : Response)
  (post : list Response) :
  Forall passes pre -> unauthorized r = true ->
  @check_responses Setter (pre ++ r :: post) = (Returned, [Navigate "/documind"]).
Proof.
  intros Hpre Hr. rewrite (check_responses_skip _ _ Hpre), check_responses_cons.
  now rewrite Hr.
Qed.

Lemma check_responses_http_error (pre : list Response) (r : Response)
  (post : list Response) :
  Forall passes pre -> unauthorized r = false -> ok r = false ->
  @check_responses Setter (pre ++ r :: post) =
  (Thrown ("HTTP error! status: " ++ string_of_Z (status r))%string, []).
Proof.
  intros Hpre Hu Hr. rewrite (check_responses_skip _ _ Hpre), check_responses_cons.
  now rewrite Hu, Hr.
Qed.

(** The loop ends in one of three ways, decided by the first response that
    does not pass. *)
Lemma check_responses_cases (rs : list Response) :
  (Forall passes rs /\ @check_responses Setter rs = (Normal tt, []))
  \/ (exists pre r post,
        rs = pre ++ r :: post /\ Forall passes pre /\ unauthorized r = true
        /\ @check_responses Setter rs = (Returned, [Navigate "/documind"]))
  \/ (exists pre r post,
        rs = pre ++ r :: post /\ Forall passes pre
        /\ unauthorized r = false /\ ok r = false
        /\ @check_responses Setter rs =
           (Thrown ("HTTP error! status: " ++ string_of_Z (status r))%string, [])).
Proof.
  induction rs as [| r rs IH].
  - left. split; [constructor | reflexivity].
  - rewrite check_responses_cons. destruct (unauthorized r) eqn:Hu.
    + right; left. exists [], r, rs. repeat split; [constructor | assumption].
    + destruct (ok r) eqn:Hr.
      * destruct IH as [[Hall Heq] | [(pre & x & post & -> & Hpre & Hx & Heq)
                                     | (pre & x & post & -> & Hpre & Hx & Hok & Heq)]].
        -- left. split; [now constructor | exact Heq].
        -- right; left. exists (r :: pre), x, post.
           repeat split; [now constructor | assumption | exact Heq].
        -- right; right. exists (r :: pre), x, post.
           repeat split; [now constructor | assumption | assumption | exact Heq].
      * right; right. exists [], r, rs.
        repeat split; [constructor | assumption | assumption].
Qed.

End ResponseLoop.

(* ================================================================== *)
(** * Load cycles of the two-resource page *)
(* ================================================================== *)

Section TwoResources.
Import ModeratorDashboard.

Lemma answers_two (env : Env) (t : string) (rs : list Response) :
  answers env t endpoints = Some rs ->
  exists r1 r2,
    rs = [r1; r2]
    /\ fetch_oracle env (API_BASE_URL ++ "/moderator/users") ("Bearer " ++ t)
       = Fulfilled r1
    /\ fetch_oracle env (API_BASE_URL ++ "/moderator/stats") ("Bearer " ++ t)
       = Fulfilled r2.
Proof.
  unfold endpoints. cbn [answers].
  destruct (fetch_oracle env (API_BASE_URL ++ "/moderator/users") _) as [r1 |];
    [| discriminate].
  destruct (fetch_oracle env (API_BASE_URL ++ "/moderator/stats") _) as [r2 |];
    [| discriminate].
  intros [= <-]. now exists r1, r2.
Qed.

(** No token: the cycle ends at the first [return]. *)
Lemma two_cycle_no_token (env : Env) (tok : option string) :
  AuthContext.getToken (auth env) = Fulfilled tok ->
  falsy_token tok = true ->
  loadDashboardData env = (Returned, started ++ [Navigate "/login"] ++ finished).
Proof.
  intros Htok Hfalsy. unfold loadDashboardData. rewrite Htok.
  cbv beta iota zeta delta
    [try_catch_finally bind set emit navigate await ret return_].
  rewrite Hfalsy. reflexivity.
Qed.

(** [getToken] rejects: the [catch] block runs. *)
Lemma two_cycle_token_rejected (env : Env) (reason : string) :
  AuthContext.getToken (auth env) = Rejected reason ->
  loadDashboardData env = (Normal tt, started ++ failed reason ++ finished).
Proof.
  intro Htok. unfold loadDashboardData. rewrite Htok. reflexivity.
Qed.

(** A request is not answered: [Promise.all] rejects after both requests
    were issued. *)
Lemma two_cycle_not_answered (env : Env) (t : string) :
  AuthContext.getToken (auth env) = Fulfilled (Some t) ->
  truthy t = true ->
  answers env t endpoints = None ->
  exists reason,
    loadDashboardData env
    = (Normal tt, started ++ requested t ++ failed reason ++ finished).
Proof.
  intros Htok Htruthy. unfold loadDashboardData, endpoints. rewrite Htok.
  cbn [answers]. run_async. rewrite Htruthy.
  destruct (fetch_oracle env (API_BASE_URL ++ "/moderator/users") _) as [r1 | e1].
  - destruct (fetch_oracle env (API_BASE_URL ++ "/moderator/stats") _) as [r2 | e2];
      [discriminate |].
    intros _. exists e2. f_equal.
  - intros _. exists e1. f_equal.
Qed.

Lemma two_cycle_answered (env : Env) (t : string) (r1 r2 : Response)
  (c : Completion unit) (l : list (Event Setter)) :
  AuthContext.getToken (auth env) = Fulfilled (Some t) ->
  truthy t = true ->
  answers env t endpoints = Some [r1; r2] ->
  check_responses [r1; r2] = (c, l) ->
  log_of env = started ++ requested t ++ l ++ after_check env r1 r2 c ++ finished.
Proof.
  intros Htok Htruthy Hans Hcheck.
  destruct (answers_two env t _ Hans) as (x1 & x2 & [= <- <-] & H1 & H2).
  unfold log_of, loadDashboardData. rewrite Htok.
  run_async. rewrite Htruthy, H1, H2. run_async. rewrite Hcheck.
  unfold after_check.
  destruct c as [[] | err |]; run_async.
  - destruct (json r1) as [u | e1]; [destruct (json r2) as [st | e2] |];
      cbn [snd]; log_eq.
  - cbn [snd]. log_eq.
  - cbn [snd]. log_eq.
Qed.



(** Every cycle takes one of these paths. *)
Lemma two_cycle_cases (env : Env) :
  (exists tok,
      AuthContext.getToken (auth env) = Fulfilled tok
      /\ falsy_token tok = true
      /\ log_of env = started ++ [Navigate "/login"] ++ finished)
  \/ (exists reqs,
        (reqs = [] \/ exists t, reqs = requested t)
        /\ (forall tok, AuthContext.getToken (auth env) = Fulfilled tok ->
                        falsy_token tok = false)
        /\ (log_of env = started ++ reqs ++ [Navigate "/documind"] ++ finished
            \/ exists reason,
                 log_of env = started ++ reqs ++ failed reason ++ finished))
  \/ (exists t r1 r2 u st,
        AuthContext.getToken (auth env) = Fulfilled (Some t)
        /\ truthy t = true
        /\ answers env t endpoints = Some [r1; r2]
        /\ Forall passes [r1; r2]
        /\ json r1 = Fulfilled u /\ json r2 = Fulfilled st
        /\ log_of env =
             started ++ requested t
             ++ [Update (setUsersData u); Update (setStats st);
                 Update (setLastUpdated (now env))] ++ finished).
Proof.
  destruct (AuthContext.getToken (auth env)) as [[t |] | reason] eqn:Htok.
  - destruct (truthy t) eqn:Htruthy.
    + assert (Hnot : forall tok, Fulfilled (Some t) = Fulfilled tok ->
                                 falsy_token tok = false).
      { intros tok [= <-]. unfold falsy_token. now rewrite Htruthy. }
      destruct (answers env t endpoints) as [rs |] eqn:Hans.
      * destruct (answers_two env t rs Hans) as (r1 & r2 & -> & _ & _).
        destruct (@check_responses_cases Setter [r1; r2])
          as [[Hall Hc] | [(pre & x & post & _ & _ & _ & Hc)
                          | (pre & x & post & _ & _ & _ & _ & Hc)]];
          pose proof (two_cycle_answered env t r1 r2 _ _ Htok Htruthy Hans Hc)
            as Hlog; cbn [after_check app] in Hlog.
        -- destruct (json r1) as [u | e1] eqn:Hj1;
             [destruct (json r2) as [st | e2] eqn:Hj2 |];
             cbn [Promise_all2] in Hlog.
           ++ right; right. exists t, r1, r2, u, st. repeat split; assumption.
           ++ right; left. exists (requested t).
              repeat split; [right; now exists t | exact Hnot |].
              right. now exists e2.
           ++ right; left. exists (requested t).
              repeat split; [right; now exists t | exact Hnot |].
              right. now exists e1.
        -- right; left. exists (requested t).
           repeat split; [right; now exists t | exact Hnot |].
           left. exact Hlog.
        -- right; left. exists (requested t).
           repeat split; [right; now exists t | exact Hnot |].
           right. eexists. exact Hlog.
      * destruct (two_cycle_not_answered env t Htok Htruthy Hans) as [reason Hlog].
        right; left. exists (requested t).
        repeat split; [right; now exists t | exact Hnot |].
        right. exists reason. unfold log_of. now rewrite Hlog.
    + left. exists (Some t). repeat split.
      * unfold falsy_token. now rewrite Htruthy.
      * unfold log_of. rewrite (two_cycle_no_token env (Some t) Htok); [reflexivity |].
        unfold falsy_token. now rewrite Htruthy.
  - left. exists None. repeat split.
    unfold log_of. now rewrite (two_cycle_no_token env None Htok).
  - right; left. exists []. repeat split; [now left | discriminate |].
    right. exists reason. unfold log_of.
    now rewrite (two_cycle_token_rejected env reason Htok).
Qed.

End TwoResources.

(* ================================================================== *)
(** * Load cycles of the four-resource page *)
(* ================================================================== *)

Section FourResources.
Import ModeratorDashboardExt.

Lemma answers_four (env : Env) (t : string) (rs : list Response) :
  answers env t endpoints = Some rs ->
  exists r1 r2 r3 r4,
    rs = [r1; r2; r3; r4]
    /\ fetch_oracle env (API_BASE_URL ++ "/moderator/users") ("Bearer " ++ t)
       = Fulfilled r1
    /\ fetch_oracle env (API_BASE_URL ++ "/moderator/sessions") ("Bearer " ++ t)
       = Fulfilled r2
    /\ fetch_oracle env (API_BASE_URL ++ "/moderator/documents") ("Bearer " ++ t)
       = Fulfilled r3
    /\ fetch_oracle env (API_BASE_URL ++ "/moderator/stats") ("Bearer " ++ t)
       = Fulfilled r4.
Proof.
  unfold endpoints. cbn [answers].
  destruct (fetch_oracle env (API_BASE_URL ++ "/moderator/users") _) as [r1 |];
    [| discriminate].
  destruct (fetch_oracle env (API_BASE_URL ++ "/moderator/sessions") _) as [r2 |];
    [| discriminate].
  destruct (fetch_oracle env (API_BASE_URL ++ "/moderator/documents") _) as [r3 |];
    [| discriminate].
  destruct (fetch_oracle env (API_BASE_URL ++ "/moderator/stats") _) as [r4 |];
    [| discriminate].
  intros [= <-]. now exists r1, r2, r3, r4.
Qed.

Lemma four_cycle_no_token (env : Env) (tok : option string) :
  AuthContext.getToken (auth env) = Fulfilled tok ->
  falsy_token tok = true ->
  loadDashboardData env = (Returned, started ++ [Navigate "/login"] ++ finished).
Proof.
  intros Htok Hfalsy. unfold loadDashboardData. rewrite Htok.
  cbv beta iota zeta delta
    [try_catch_finally bind set emit navigate await ret return_].
  rewrite Hfalsy. reflexivity.
Qed.

Lemma four_cycle_token_rejected (env : Env) (reason : string) :
  AuthContext.getToken (auth env) = Rejected reason ->
  loadDashboardData env = (Normal tt, started ++ failed reason ++ finished).
Proof.
  intro Htok. unfold loadDashboardData. rewrite Htok. reflexivity.
Qed.

Lemma four_cycle_not_answered (env : Env) (t : string) :
  AuthContext.getToken (auth env) = Fulfilled (Some t) ->
  truthy t = true ->
  answers env t endpoints = None ->
  exists reason,
    loadDashboardData env
    = (Normal tt, started ++ requested t ++ failed reason ++ finished).
Proof.
  intros Htok Htruthy. unfold loadDashboardData, endpoints. rewrite Htok.
  cbn [answers]. run_async. rewrite Htruthy.
  destruct (fetch_oracle env (API_BASE_URL ++ "/moderator/users") _) as [r1 | e1];
    [| intros _; exists e1; f_equal].
  destruct (fetch_oracle env (API_BASE_URL ++ "/moderator/sessions") _) as [r2 | e2];
    [| intros _; exists e2; f_equal].
  destruct (fetch_oracle env (API_BASE_URL ++ "/moderator/documents") _) as [r3 | e3];
    [| intros _; exists e3; f_equal].
  destruct (fetch_oracle env (API_BASE_URL ++ "/moderator/stats") _) as [r4 | e4];
    [discriminate | intros _; exists e4; f_equal].
Qed.

Lemma four_cycle_answered (env : Env) (t : string) (r1 r2 r3 r4 : Response)
  (c : Completion unit) (l : list (Event Setter)) :
  AuthContext.getToken (auth env) = Fulfilled (Some t) ->
  truthy t = true ->
  answers env t endpoints = Some [r1; r2; r3; r4] ->
  check_responses [r1; r2; r3; r4] = (c, l) ->
  log_of env =
  started ++ requested t ++ l ++ after_check env r1 r2 r3 r4 c ++ finished.
Proof.
  intros Htok Htruthy Hans Hcheck.
  destruct (answers_four env t _ Hans)
    as (x1 & x2 & x3 & x4 & [= <- <- <- <-] & H1 & H2 & H3 & H4).
  unfold log_of, loadDashboardData. rewrite Htok.
  run_async. rewrite Htruthy, H1, H2, H3, H4. run_async. rewrite Hcheck.
  unfold after_check.
  destruct c as [[] | err |]; run_async.
  - destruct (json r1) as [u | e1];
      [destruct (json r2) as [se | e2];
       [destruct (json r3) as [d | e3];
        [destruct (json r4) as [st | e4] | ] | ] | ];
      cbn [snd]; log_eq.
  - cbn [snd]. log_eq.
  - cbn [snd]. log_eq.
Qed.

Lemma four_cycle_cases (env : Env) :
  (exists tok,
      AuthContext.getToken (auth env) = Fulfilled tok
      /\ falsy_token tok = true
      /\ log_of env = started ++ [Navigate "/login"] ++ finished)
  \/ (exists reqs,
        (reqs = [] \/ exists t, reqs = requested t)
        /\ (forall tok, AuthContext.getToken (auth env) = Fulfilled tok ->
                        falsy_token tok = false)
        /\ (log_of env = started ++ reqs ++ [Navigate "/documind"] ++ finished
            \/ exists reason,
                 log_of env = started ++ reqs ++ failed reason ++ finished))
  \/ (exists t r1 r2 r3 r4 u se d st,
        AuthContext.getToken (auth env) = Fulfilled (Some t)
        /\ truthy t = true
        /\ answers env t endpoints = Some [r1; r2; r3; r4]
        /\ Forall passes [r1; r2; r3; r4]
        /\ (json r1 = Fulfilled u /\ json r2 = Fulfilled se
            /\ json r3 = Fulfilled d /\ json r4 = Fulfilled st)
        /\ log_of env =
             started ++ requested t
             ++ [Update (setUsers u); Update (setSessions se);
                 Update (setDocuments d); Update (setStats st);
                 Update (setLastUpdated (now env))] ++ finished).
Proof.
  destruct (AuthContext.getToken (auth env)) as [[t |] | reason] eqn:Htok.
  - destruct (truthy t) eqn:Htruthy.
    + assert (Hnot : forall tok, Fulfilled (Some t) = Fulfilled tok ->
                                 falsy_token tok = false).
      { intros tok [= <-]. unfold falsy_token. now rewrite Htruthy. }
      assert (Hfail : forall reason,
                 log_of env = started ++ requested t ++ failed reason ++ finished ->
                 exists reqs,
                   (reqs = [] \/ exists t, reqs = requested t)
                   /\ (forall tok, Fulfilled (Some t) = Fulfilled tok ->
                                   falsy_token tok = false)
                   /\ (log_of env = started ++ reqs ++ [Navigate "/documind"] ++ finished
                       \/ exists reason,
                            log_of env = started ++ reqs ++ failed reason ++ finished)).
      { intros reason Hlog. exists (requested t).
        repeat split; [right; now exists t | exact Hnot |].
        right. now exists reason. }
      destruct (answers env t endpoints) as [rs |] eqn:Hans.
      * destruct (answers_four env t rs Hans) as (r1 & r2 & r3 & r4 & -> & _).
        destruct (@check_responses_cases Setter [r1; r2; r3; r4])
          as [[Hall Hc] | [(pre & x & post & _ & _ & _ & Hc)
                          | (pre & x & post & _ & _ & _ & _ & Hc)]];
          pose proof (four_cycle_answered env t r1 r2 r3 r4 _ _ Htok Htruthy Hans Hc)
            as Hlog; cbn [after_check app] in Hlog.
        -- destruct (json r1) as [u | e1] eqn:Hj1;
             [destruct (json r2) as [se | e2] eqn:Hj2;
              [destruct (json r3) as [d | e3] eqn:Hj3;
               [destruct (json r4) as [st | e4] eqn:Hj4 | ] | ] | ];
             cbn [Promise_all4] in Hlog.
           ++ right; right. exists t, r1, r2, r3, r4, u, se, d, st.
              repeat split; assumption.
           ++ right; left. now apply (Hfail e4).
           ++ right; left. now apply (Hfail e3).
           ++ right; left. now apply (Hfail e2).
           ++ right; left. now apply (Hfail e1).
        -- right; left. exists (requested t).
           repeat split; [right; now exists t | exact Hnot |].
           left. exact Hlog.
        -- right; left. now apply (Hfail _ Hlog).
      * destruct (four_cycle_not_answered env t Htok Htruthy Hans) as [reason Hlog].
        right; left. apply (Hfail reason). unfold log_of. now rewrite Hlog.
    + left. exists (Some t). repeat split.
      * unfold falsy_token. now rewrite Htruthy.
      * unfold log_of. rewrite (four_cycle_no_token env (Some t) Htok); [reflexivity |].
        unfold falsy_token. now rewrite Htruthy.
  - left. exists None. repeat split.
    unfold log_of. now rewrite (four_cycle_no_token env None Htok).
  - right; left. exists []. repeat split; [now left | discriminate |].
    right. exists reason. unfold log_of.
    now rewrite (four_cycle_token_rejected env reason Htok).
Qed.

End FourResources.

(* ================================================================== *)
(** * Replaying a log *)
(* ================================================================== *)

(** A non-empty proper prefix of a bracketed log starts with the opening
    event and stays inside the middle. *)
Lemma prefix_of_bracketed {E : Type} (first last : E) (mid p q : list E) :
  first :: mid ++ [last] = p ++ q -> p <> [] -> q <> [] ->
  exists p' rest, p = first :: p' /\ mid = p' ++ rest.
Proof.
  intros Heq Hp Hq. destruct p as [| e p']; [contradiction |].
  injection Heq as <- Heq. exists p'.
  symmetry in Heq. apply app_eq_app in Heq.
  destruct Heq as [l [[-> Hl] | [-> _]]].
  - destruct l as [| x l].
    + exists []. split; [reflexivity | now rewrite !app_nil_r].
    + injection Hl as _ Hl. symmetry in Hl. apply app_eq_nil in Hl.
      destruct Hl as [_ ->]. contradiction.
  - now exists l.
Qed.

Section ReplayTwo.
Import ModeratorDashboard.

Lemma two_loading_kept (l : list (Event Setter)) (s : State) :
  existsb sets_loading l = false -> loading (replay l s) = loading s.
Proof.
  revert s. induction l as [| e l IH]; intros s H; [reflexivity |].
  cbn [existsb] in H. apply orb_false_iff in H. destruct H as [He Hl].
  unfold replay. cbn [fold_left]. fold (replay l (step s e)). rewrite (IH _ Hl).
  destruct e as [[] | | |]; try reflexivity. discriminate He.
Qed.

Lemma two_snapshot_kept (l : list (Event Setter)) (s : State) :
  existsb writes_snapshot l = false -> snapshot (replay l s) = snapshot s.
Proof.
  revert s. induction l as [| e l IH]; intros s H; [reflexivity |].
  cbn [existsb] in H. apply orb_false_iff in H. destruct H as [He Hl].
  unfold replay. cbn [fold_left]. fold (replay l (step s e)). rewrite (IH _ Hl).
  destruct e as [[] | | |]; try reflexivity; discriminate He.
Qed.

Lemma two_loading_during (mid p q : list (Event Setter)) (s0 : State) :
  Update (setLoading true) :: mid ++ [Update (setLoading false)] = p ++ q ->
  existsb sets_loading mid = false ->
  p <> [] -> q <> [] ->
  loading (replay p s0) = true.
Proof.
  intros Heq Hmid Hp Hq.
  destruct (prefix_of_bracketed _ _ _ _ _ Heq Hp Hq) as (p' & rest & -> & ->).
  rewrite existsb_app in Hmid. apply orb_false_iff in Hmid.
  unfold replay. cbn [fold_left]. fold (replay p' (step s0 (Update (setLoading true)))).
  now rewrite (two_loading_kept _ _ (proj1 Hmid)).
Qed.

End ReplayTwo.

Section ReplayFour.
Import ModeratorDashboardExt.

Lemma four_loading_kept (l : list (Event Setter)) (s : State) :
  existsb sets_loading l = false -> loading (replay l s) = loading s.
Proof.
  revert s. induction l as [| e l IH]; intros s H; [reflexivity |].
  cbn [existsb] in H. apply orb_false_iff in H. destruct H as [He Hl].
  unfold replay. cbn [fold_left]. fold (replay l (step s e)). rewrite (IH _ Hl).
  destruct e as [[] | | |]; try reflexivity. discriminate He.
Qed.

Lemma four_snapshot_kept (l : list (Event Setter)) (s : State) :
  existsb writes_snapshot l = false -> snapshot (replay l s) = snapshot s.
Proof.
  revert s. induction l as [| e l IH]; intros s H; [reflexivity |].
  cbn [existsb] in H. apply orb_false_iff in H. destruct H as [He Hl].
  unfold replay. cbn [fold_left]. fold (replay l (step s e)). rewrite (IH _ Hl).
  destruct e as [[] | | |]; try reflexivity; discriminate He.
Qed.

Lemma four_loading_during (mid p q : list (Event Setter)) (s0 : State) :
  Update (setLoading true) :: mid ++ [Update (setLoading false)] = p ++ q ->
  existsb sets_loading mid = false ->
  p <> [] -> q <> [] ->
  loading (replay p s0) = true.
Proof.
  intros Heq Hmid Hp Hq.
  destruct (prefix_of_bracketed _ _ _ _ _ Heq Hp Hq) as (p' & rest & -> & ->).
  rewrite existsb_app in Hmid. apply orb_false_iff in Hmid.
  unfold replay. cbn [fold_left]. fold (replay p' (step s0 (Update (setLoading true)))).
  now rewrite (four_loading_kept _ _ (proj1 Hmid)).
Qed.

End ReplayFour.

(* ================================================================== *)
(** * Load cycles: what is signalled, and what is published *)
(* ================================================================== *)

Lemma getToken_signed_out (a : AuthContext.Auth) :
  AuthContext.auth_currentUser a = None ->
  AuthContext.getToken a = Fulfilled None.
Proof. intro H. unfold AuthContext.getToken. now rewrite H. Qed.

(** C6. When [getToken] resolves to no token, the cycle signals
    Unauthenticated (it navigates to the sign-in page and returns) and
    issues no request: its log is [setLoading(true)], [setError('')],
    [navigate('/login')], [setLoading(false)]; in both pages. *)
Theorem C6_no_token_no_request :
  forall env : Env,
    AuthContext.getToken (auth env) = Fulfilled None ->
    (ModeratorDashboard.loadDashboardData env
     = (Returned,
        [Update (ModeratorDashboard.setLoading true);
         Update (ModeratorDashboard.setError "");
         Navigate "/login";
         Update (ModeratorDashboard.setLoading false)])
     /\ filter ModeratorDashboard.is_fetch (ModeratorDashboard.log_of env) = []
     /\ outcomes ModeratorDashboard.signals (ModeratorDashboard.log_of env)
        = [Unauthenticated])
    /\ (ModeratorDashboardExt.loadDashboardData env
        = (Returned,
           [Update (ModeratorDashboardExt.setLoading true);
            Update (ModeratorDashboardExt.setError "");
            Navigate "/login";
            Update (ModeratorDashboardExt.setLoading false)])
        /\ filter ModeratorDashboardExt.is_fetch (ModeratorDashboardExt.log_of env) = []
        /\ outcomes ModeratorDashboardExt.signals (ModeratorDashboardExt.log_of env)
           = [Unauthenticated]).
Proof.
  intros env Htok. split.
  - pose proof (two_cycle_no_token env None Htok eq_refl) as H.
    unfold ModeratorDashboard.log_of. rewrite H. repeat split.
  - pose proof (four_cycle_no_token env None Htok eq_refl) as H.
    unfold ModeratorDashboardExt.log_of. rewrite H. repeat split.
Qed.

Lemma C6_witness :
  AuthContext.getToken (auth world_signed_out) = Fulfilled None
  /\ filter ModeratorDashboard.is_fetch (ModeratorDashboard.log_of world_signed_out) = []
  /\ filter ModeratorDashboardExt.is_fetch (ModeratorDashboardExt.log_of world_signed_out) = [].
Proof.
  split; [reflexivity |].
  destruct (C6_no_token_no_request world_signed_out eq_refl)
    as [(_ & H2 & _) (_ & H4 & _)].
  split; assumption.
Defined.

(** With a 500 from the users endpoint and a 401 from the next one, the
    cycle signals RemoteError, not Unauthorized: the loop throws at the
    first response and never looks at the second. *)
Lemma C1_error_before_unauthorized :
  AuthContext.getToken (auth world_500_then_401) = Fulfilled (Some "token-1")
  /\ answers world_500_then_401 "token-1" ModeratorDashboard.endpoints
     = Some [answer 500 (Fulfilled JNull); answer 401 (Fulfilled JNull)]
  /\ existsb unauthorized
       [answer 500 (Fulfilled JNull); answer 401 (Fulfilled JNull)] = true
  /\ outcomes ModeratorDashboard.signals (ModeratorDashboard.log_of world_500_then_401)
     = [RemoteError]
  /\ outcomes ModeratorDashboardExt.signals
       (ModeratorDashboardExt.log_of world_500_then_401)
     = [RemoteError].
Proof. repeat split. Qed.

Lemma two_unauthorized_first (env : Env) (t : string)
  (pre : list Response) (r : Response) (post : list Response) :
  AuthContext.getToken (auth env) = Fulfilled (Some t) ->
  truthy t = true ->
  Forall passes pre -> unauthorized r = true ->
  answers env t ModeratorDashboard.endpoints = Some (pre ++ r :: post) ->
  outcomes ModeratorDashboard.signals (ModeratorDashboard.log_of env)
  = [Unauthorized].
Proof.
  intros Htok Htruthy Hpre Hr Hans.
  pose proof (@check_responses_unauthorized ModeratorDashboard.Setter
                pre r post Hpre Hr) as Hc.
  destruct (answers_two env t _ Hans) as (r1 & r2 & Hrs & _).
  rewrite Hrs in Hc, Hans.
  rewrite (two_cycle_answered env t r1 r2 _ _ Htok Htruthy Hans Hc).
  reflexivity.
Qed.

Lemma four_unauthorized_first (env : Env) (t : string)
  (pre : list Response) (r : Response) (post : list Response) :
  AuthContext.getToken (auth env) = Fulfilled (Some t) ->
  truthy t = true ->
  Forall passes pre -> unauthorized r = true ->
  answers env t ModeratorDashboardExt.endpoints = Some (pre ++ r :: post) ->
  outcomes ModeratorDashboardExt.signals (ModeratorDashboardExt.log_of env)
  = [Unauthorized].
Proof.
  intros Htok Htruthy Hpre Hr Hans.
  pose proof (@check_responses_unauthorized ModeratorDashboardExt.Setter
                pre r post Hpre Hr) as Hc.
  destruct (answers_four env t _ Hans) as (r1 & r2 & r3 & r4 & Hrs & _).
  rewrite Hrs in Hc, Hans.
  rewrite (four_cycle_answered env t r1 r2 r3 r4 _ _ Htok Htruthy Hans Hc).
  reflexivity.
Qed.

(** C1 (as the code has it). In a cycle that obtained a token and got an
    answer to every request, the first response, in the order users,
    (sessions, documents,) stats, that is not [ok] decides: when that
    response carries 401 or 403, the cycle signals Unauthorized and nothing
    else, whatever the responses after it are. *)
Theorem C1_first_failure_decides :
  forall (env : Env) (t : string)
         (pre : list Response) (r : Response) (post : list Response),
    AuthContext.getToken (auth env) = Fulfilled (Some t) ->
    truthy t = true ->
    Forall passes pre ->
    unauthorized r = true ->
    (answers env t ModeratorDashboard.endpoints = Some (pre ++ r :: post) ->
     outcomes ModeratorDashboard.signals (ModeratorDashboard.log_of env)
     = [Unauthorized])
    /\ (answers env t ModeratorDashboardExt.endpoints = Some (pre ++ r :: post) ->
        outcomes ModeratorDashboardExt.signals (ModeratorDashboardExt.log_of env)
        = [Unauthorized]).
Proof.
  intros env t pre r post Htok Htruthy Hpre Hr. split; intro Hans.
  - now apply (two_unauthorized_first env t pre r post).
  - now apply (four_unauthorized_first env t pre r post).
Qed.

(** The users endpoint answers 401 and the stats endpoint 200: the
    cycle signals Unauthorized. *)
Lemma C1_witness :
  outcomes ModeratorDashboard.signals (ModeratorDashboard.log_of world_users_401)
  = [Unauthorized]
  /\ outcomes ModeratorDashboardExt.signals
       (ModeratorDashboardExt.log_of world_users_401)
     = [Unauthorized].
Proof.
  pose proof (C1_first_failure_decides world_users_401 "token-1" []
                (answer 401 (Fulfilled JNull))
                [answer 200 (Fulfilled sample_stats)]
                eq_refl eq_refl (Forall_nil _) eq_refl) as [H2 _].
  pose proof (C1_first_failure_decides world_users_401 "token-1" []
                (answer 401 (Fulfilled JNull))
                [answer 200 (Fulfilled sample_stats);
                 answer 200 (Fulfilled sample_stats);
                 answer 200 (Fulfilled sample_stats)]
                eq_refl eq_refl (Forall_nil _) eq_refl) as [_ H4].
  split; [exact (H2 eq_refl) | exact (H4 eq_refl)].
Defined.

(** A cycle with no identity signals none of snapshot replaced,
    Unauthorized and RemoteError. *)
Lemma C7_none_of_three :
  AuthContext.getToken (auth world_signed_out) = Fulfilled None
  /\ outcomes_among [SnapshotReplaced; Unauthorized; RemoteError]
       ModeratorDashboard.signals (ModeratorDashboard.log_of world_signed_out) = []
  /\ outcomes_among [SnapshotReplaced; Unauthorized; RemoteError]
       ModeratorDashboardExt.signals (ModeratorDashboardExt.log_of world_signed_out) = [].
Proof. repeat split. Qed.

Lemma falsy_token_contradiction (s : Settled (option string)) :
  (forall tok, s = Fulfilled tok -> falsy_token tok = false) ->
  (exists tok, s = Fulfilled tok /\ falsy_token tok = true) -> False.
Proof.
  intros Hnot (tok & Heq & Hfalsy). rewrite (Hnot tok Heq) in Hfalsy.
  discriminate.
Qed.

Section OneOutcome.

Lemma two_one_outcome (env : Env) :
  exists (o : Outcome) (mid : list (Event ModeratorDashboard.Setter)),
    ModeratorDashboard.log_of env
    = Update (ModeratorDashboard.setLoading true)
        :: mid ++ [Update (ModeratorDashboard.setLoading false)]
    /\ existsb ModeratorDashboard.sets_loading mid = false
    /\ outcomes ModeratorDashboard.signals mid = [o]
    /\ outcomes ModeratorDashboard.signals (ModeratorDashboard.log_of env) = [o]
    /\ (o = Unauthenticated <->
        exists tok, AuthContext.getToken (auth env) = Fulfilled tok
                    /\ falsy_token tok = true).
Proof.
  destruct (two_cycle_cases env)
    as [(tok & Htok & Hfalsy & Hlog)
       | [(reqs & Hreqs & Hnot & [Hlog | [reason Hlog]])
         | (t & r1 & r2 & u & st & Htok & Htruthy & _ & _ & _ & _ & Hlog)]].
  - exists Unauthenticated, [Update (ModeratorDashboard.setError ""); Navigate "/login"].
    rewrite Hlog. repeat split. intros _. now exists tok.
  - exists Unauthorized,
      (Update (ModeratorDashboard.setError "") :: reqs ++ [Navigate "/documind"]).
    rewrite Hlog. destruct Hreqs as [-> | [t ->]];
      (repeat split; [discriminate |]);
      intro H; destruct (falsy_token_contradiction _ Hnot H).
  - exists RemoteError,
      (Update (ModeratorDashboard.setError "")
         :: reqs ++ ModeratorDashboard.failed reason).
    rewrite Hlog. destruct Hreqs as [-> | [t ->]];
      (repeat split; [discriminate |]);
      intro H; destruct (falsy_token_contradiction _ Hnot H).
  - exists SnapshotReplaced,
      (Update (ModeratorDashboard.setError "")
         :: ModeratorDashboard.requested t
         ++ [Update (ModeratorDashboard.setUsersData u);
             Update (ModeratorDashboard.setStats st);
             Update (ModeratorDashboard.setLastUpdated (now env))]).
    rewrite Hlog. repeat split; [discriminate |].
    intros (tok & Heq & Hfalsy). rewrite Htok in Heq. injection Heq as <-.
    unfold falsy_token in Hfalsy. rewrite Htruthy in Hfalsy. discriminate.
Qed.

Lemma four_one_outcome (env : Env) :
  exists (o : Outcome) (mid : list (Event ModeratorDashboardExt.Setter)),
    ModeratorDashboardExt.log_of env
    = Update (ModeratorDashboardExt.setLoading true)
        :: mid ++ [Update (ModeratorDashboardExt.setLoading false)]
    /\ existsb ModeratorDashboardExt.sets_loading mid = false
    /\ outcomes ModeratorDashboardExt.signals mid = [o]
    /\ outcomes ModeratorDashboardExt.signals (ModeratorDashboardExt.log_of env) = [o]
    /\ (o = Unauthenticated <->
        exists tok, AuthContext.getToken (auth env) = Fulfilled tok
                    /\ falsy_token tok = true).
Proof.
  destruct (four_cycle_cases env)
    as [(tok & Htok & Hfalsy & Hlog)
       | [(reqs & Hreqs & Hnot & [Hlog | [reason Hlog]])
         | (t & r1 & r2 & r3 & r4 & u & se & d & st
            & Htok & Htruthy & _ & _ & _ & Hlog)]].
  - exists Unauthenticated,
      [Update (ModeratorDashboardExt.setError ""); Navigate "/login"].
    rewrite Hlog. repeat split. intros _. now exists tok.
  - exists Unauthorized,
      (Update (ModeratorDashboardExt.setError "") :: reqs ++ [Navigate "/documind"]).
    rewrite Hlog. destruct Hreqs as [-> | [t ->]];
      (repeat split; [discriminate |]);
      intro H; destruct (falsy_token_contradiction _ Hnot H).
  - exists RemoteError,
      (Update (ModeratorDashboardExt.setError "")
         :: reqs ++ ModeratorDashboardExt.failed reason).
    rewrite Hlog. destruct Hreqs as [-> | [t ->]];
      (repeat split; [discriminate |]);
      intro H; destruct (falsy_token_contradiction _ Hnot H).
  - exists SnapshotReplaced,
      (Update (ModeratorDashboardExt.setError "")
         :: ModeratorDashboardExt.requested t
         ++ [Update (ModeratorDashboardExt.setUsers u);
             Update (ModeratorDashboardExt.setSessions se);
             Update (ModeratorDashboardExt.setDocuments d);
             Update (ModeratorDashboardExt.setStats st);
             Update (ModeratorDashboardExt.setLastUpdated (now env))]).
    rewrite Hlog. repeat split; [discriminate |].
    intros (tok & Heq & Hfalsy). rewrite Htok in Heq. injection Heq as <-.
    unfold falsy_token in Hfalsy. rewrite Htruthy in Hfalsy. discriminate.
Qed.

End OneOutcome.

(** C7 (as the code has it). Every load cycle signals exactly one of four
    outcomes: Unauthenticated, Unauthorized, RemoteError, snapshot replaced.
    It is Unauthenticated exactly when [getToken] resolves to no token
    ([null] or the empty string); every other cycle signals exactly one of
    the remaining three.  The cycle's first update is [setLoading(true)],
    its last is [setLoading(false)], the outcome is signalled in between
    and [loading] is not set in between: the flag is true at every point of
    the cycle after its start and before its end, and false at its end. *)
Theorem C7_one_outcome_per_cycle :
  forall env : Env,
    (exists (o : Outcome) (mid : list (Event ModeratorDashboard.Setter)),
        ModeratorDashboard.log_of env
        = Update (ModeratorDashboard.setLoading true)
            :: mid ++ [Update (ModeratorDashboard.setLoading false)]
        /\ existsb ModeratorDashboard.sets_loading mid = false
        /\ outcomes ModeratorDashboard.signals mid = [o]
        /\ outcomes ModeratorDashboard.signals (ModeratorDashboard.log_of env) = [o]
        /\ (o = Unauthenticated <->
            exists tok, AuthContext.getToken (auth env) = Fulfilled tok
                        /\ falsy_token tok = true)
        /\ (forall s0 p q,
              ModeratorDashboard.log_of env = p ++ q -> p <> [] -> q <> [] ->
              ModeratorDashboard.loading (ModeratorDashboard.replay p s0) = true)
        /\ (forall s0,
              ModeratorDashboard.loading
                (ModeratorDashboard.replay (ModeratorDashboard.log_of env) s0)
              = false))
    /\ (exists (o : Outcome) (mid : list (Event ModeratorDashboardExt.Setter)),
        ModeratorDashboardExt.log_of env
        = Update (ModeratorDashboardExt.setLoading true)
            :: mid ++ [Update (ModeratorDashboardExt.setLoading false)]
        /\ existsb ModeratorDashboardExt.sets_loading mid = false
        /\ outcomes ModeratorDashboardExt.signals mid = [o]
        /\ outcomes ModeratorDashboardExt.signals (ModeratorDashboardExt.log_of env) = [o]
        /\ (o = Unauthenticated <->
            exists tok, AuthContext.getToken (auth env) = Fulfilled tok
                        /\ falsy_token tok = true)
        /\ (forall s0 p q,
              ModeratorDashboardExt.log_of env = p ++ q -> p <> [] -> q <> [] ->
              ModeratorDashboardExt.loading (ModeratorDashboardExt.replay p s0) = true)
        /\ (forall s0,
              ModeratorDashboardExt.loading
                (ModeratorDashboardExt.replay (ModeratorDashboardExt.log_of env) s0)
              = false)).
Proof.
  intro env. split.
  - destruct (two_one_outcome env) as (o & mid & Hlog & Hmid & Ho & Ho' & Hiff).
    exists o, mid. repeat split; try assumption; try apply Hiff.
    + intros s0 p q Hsplit Hp Hq. rewrite Hlog in Hsplit.
      exact (two_loading_during mid p q s0 Hsplit Hmid Hp Hq).
    + intro s0. rewrite Hlog.
      change (Update (ModeratorDashboard.setLoading true)
                :: mid ++ [Update (ModeratorDashboard.setLoading false)])
        with ((Update (ModeratorDashboard.setLoading true) :: mid)
                ++ [Update (ModeratorDashboard.setLoading false)]).
      unfold ModeratorDashboard.replay. now rewrite fold_left_app.
  - destruct (four_one_outcome env) as (o & mid & Hlog & Hmid & Ho & Ho' & Hiff).
    exists o, mid. repeat split; try assumption; try apply Hiff.
    + intros s0 p q Hsplit Hp Hq. rewrite Hlog in Hsplit.
      exact (four_loading_during mid p q s0 Hsplit Hmid Hp Hq).
    + intro s0. rewrite Hlog.
      change (Update (ModeratorDashboardExt.setLoading true)
                :: mid ++ [Update (ModeratorDashboardExt.setLoading false)])
        with ((Update (ModeratorDashboardExt.setLoading true) :: mid)
                ++ [Update (ModeratorDashboardExt.setLoading false)]).
      unfold ModeratorDashboardExt.replay. now rewrite fold_left_app.
Qed.

Section Atomicity.

Lemma two_failure_keeps_snapshot (env : Env) (o : Outcome) :
  In o (outcomes ModeratorDashboard.signals (ModeratorDashboard.log_of env)) ->
  o <> SnapshotReplaced ->
  existsb ModeratorDashboard.writes_snapshot (ModeratorDashboard.log_of env) = false
  /\ forall s0,
       ModeratorDashboard.snapshot
         (ModeratorDashboard.replay (ModeratorDashboard.log_of env) s0)
       = ModeratorDashboard.snapshot s0.
Proof.
  intros Hin Hneq.
  assert (Hwrites : existsb ModeratorDashboard.writes_snapshot
                      (ModeratorDashboard.log_of env) = false).
  { destruct (two_cycle_cases env)
      as [(tok & _ & _ & Hlog)
         | [(reqs & Hreqs & _ & [Hlog | [reason Hlog]])
           | (t & r1 & r2 & u & st & _ & _ & _ & _ & _ & _ & Hlog)]];
      rewrite Hlog in *.
    - reflexivity.
    - destruct Hreqs as [-> | [t ->]]; reflexivity.
    - destruct Hreqs as [-> | [t ->]]; reflexivity.
    - destruct Hin as [<- | []]. now contradiction Hneq. }
  split; [exact Hwrites |].
  intro s0. now apply two_snapshot_kept.
Qed.

Lemma two_success_replaces_all (env : Env) :
  In SnapshotReplaced
     (outcomes ModeratorDashboard.signals (ModeratorDashboard.log_of env)) ->
  exists t r1 r2 u st,
    AuthContext.getToken (auth env) = Fulfilled (Some t)
    /\ answers env t ModeratorDashboard.endpoints = Some [r1; r2]
    /\ Forall passes [r1; r2]
    /\ json r1 = Fulfilled u /\ json r2 = Fulfilled st
    /\ forall s0,
         ModeratorDashboard.snapshot
           (ModeratorDashboard.replay (ModeratorDashboard.log_of env) s0)
         = (u, st, Some (now env)).
Proof.
  intro Hin.
  destruct (two_cycle_cases env)
    as [(tok & _ & _ & Hlog)
       | [(reqs & Hreqs & _ & [Hlog | [reason Hlog]])
         | (t & r1 & r2 & u & st & Htok & _ & Hans & Hpass & Hu & Hst & Hlog)]];
    rewrite Hlog in *.
  - destruct Hin as [[=] | []].
  - destruct Hreqs as [-> | [t ->]]; destruct Hin as [[=] | []].
  - destruct Hreqs as [-> | [t ->]]; destruct Hin as [[=] | []].
  - exists t, r1, r2, u, st. repeat split; assumption.
Qed.

Lemma four_failure_keeps_snapshot (env : Env) (o : Outcome) :
  In o (outcomes ModeratorDashboardExt.signals (ModeratorDashboardExt.log_of env)) ->
  o <> SnapshotReplaced ->
  existsb ModeratorDashboardExt.writes_snapshot (ModeratorDashboardExt.log_of env)
  = false
  /\ forall s0,
       ModeratorDashboardExt.snapshot
         (ModeratorDashboardExt.replay (ModeratorDashboardExt.log_of env) s0)
       = ModeratorDashboardExt.snapshot s0.
Proof.
  intros Hin Hneq.
  assert (Hwrites : existsb ModeratorDashboardExt.writes_snapshot
                      (ModeratorDashboardExt.log_of env) = false).
  { destruct (four_cycle_cases env)
      as [(tok & _ & _ & Hlog)
         | [(reqs & Hreqs & _ & [Hlog | [reason Hlog]])
           | (t & r1 & r2 & r3 & r4 & u & se & d & st & _ & _ & _ & _ & _ & Hlog)]];
      rewrite Hlog in *.
    - reflexivity.
    - destruct Hreqs as [-> | [t ->]]; reflexivity.
    - destruct Hreqs as [-> | [t ->]]; reflexivity.
    - destruct Hin as [<- | []]. now contradiction Hneq. }
  split; [exact Hwrites |].
  intro s0. now apply four_snapshot_kept.
Qed.

Lemma four_success_replaces_all (env : Env) :
  In SnapshotReplaced
     (outcomes ModeratorDashboardExt.signals (ModeratorDashboardExt.log_of env)) ->
  exists t r1 r2 r3 r4 u se d st,
    AuthContext.getToken (auth env) = Fulfilled (Some t)
    /\ answers env t ModeratorDashboardExt.endpoints = Some [r1; r2; r3; r4]
    /\ Forall passes [r1; r2; r3; r4]
    /\ (json r1 = Fulfilled u /\ json r2 = Fulfilled se
        /\ json r3 = Fulfilled d /\ json r4 = Fulfilled st)
    /\ forall s0,
         ModeratorDashboardExt.snapshot
           (ModeratorDashboardExt.replay (ModeratorDashboardExt.log_of env) s0)
         = (u, se, d, st, Some (now env)).
Proof.
  intro Hin.
  destruct (four_cycle_cases env)
    as [(tok & _ & _ & Hlog)
       | [(reqs & Hreqs & _ & [Hlog | [reason Hlog]])
         | (t & r1 & r2 & r3 & r4 & u & se & d & st
            & Htok & _ & Hans & Hpass & Hbodies & Hlog)]];
    rewrite Hlog in *.
  - destruct Hin as [[=] | []].
  - destruct Hreqs as [-> | [t ->]]; destruct Hin as [[=] | []].
  - destruct Hreqs as [-> | [t ->]]; destruct Hin as [[=] | []].
  - exists t, r1, r2, r3, r4, u, se, d, st. repeat split; try assumption;
      apply Hbodies.
Qed.

End Atomicity.

(** C5. A cycle that fails, with Unauthenticated, Unauthorized or
    RemoteError (a body that does not parse included), calls no snapshot
    setter: whatever state the component was in, its snapshot fields
    ([usersData], [stats], [lastUpdated]; [users], [sessions], [documents],
    [stats], [lastUpdated] in the four-resource page) are after the cycle
    what they were before.  A cycle that replaces the snapshot got an [ok]
    answer with a parsed body from every endpoint, and replaces every field:
    each data field by the body of its endpoint, [lastUpdated] by the time
    of the cycle. *)
Theorem C5_snapshot_atomic :
  forall env : Env,
    (forall o,
        In o (outcomes ModeratorDashboard.signals (ModeratorDashboard.log_of env)) ->
        o <> SnapshotReplaced ->
        existsb ModeratorDashboard.writes_snapshot (ModeratorDashboard.log_of env)
        = false
        /\ forall s0,
             ModeratorDashboard.snapshot
               (ModeratorDashboard.replay (ModeratorDashboard.log_of env) s0)
             = ModeratorDashboard.snapshot s0)
    /\ (forall o,
        In o (outcomes ModeratorDashboardExt.signals
                (ModeratorDashboardExt.log_of env)) ->
        o <> SnapshotReplaced ->
        existsb ModeratorDashboardExt.writes_snapshot
          (ModeratorDashboardExt.log_of env) = false
        /\ forall s0,
             ModeratorDashboardExt.snapshot
               (ModeratorDashboardExt.replay (ModeratorDashboardExt.log_of env) s0)
             = ModeratorDashboardExt.snapshot s0)
    /\ (In SnapshotReplaced
          (outcomes ModeratorDashboard.signals (ModeratorDashboard.log_of env)) ->
        exists t r1 r2 u st,
          AuthContext.getToken (auth env) = Fulfilled (Some t)
          /\ answers env t ModeratorDashboard.endpoints = Some [r1; r2]
          /\ Forall passes [r1; r2]
          /\ json r1 = Fulfilled u /\ json r2 = Fulfilled st
          /\ forall s0,
               ModeratorDashboard.snapshot
                 (ModeratorDashboard.replay (ModeratorDashboard.log_of env) s0)
               = (u, st, Some (now env)))
    /\ (In SnapshotReplaced
          (outcomes ModeratorDashboardExt.signals
             (ModeratorDashboardExt.log_of env)) ->
        exists t r1 r2 r3 r4 u se d st,
          AuthContext.getToken (auth env) = Fulfilled (Some t)
          /\ answers env t ModeratorDashboardExt.endpoints = Some [r1; r2; r3; r4]
          /\ Forall passes [r1; r2; r3; r4]
          /\ (json r1 = Fulfilled u /\ json r2 = Fulfilled se
              /\ json r3 = Fulfilled d /\ json r4 = Fulfilled st)
          /\ forall s0,
               ModeratorDashboardExt.snapshot
                 (ModeratorDashboardExt.replay (ModeratorDashboardExt.log_of env) s0)
               = (u, se, d, st, Some (now env))).
Proof.
  intro env. split; [| split; [| split]].
  - intros o. apply two_failure_keeps_snapshot.
  - intros o. apply four_failure_keeps_snapshot.
  - apply two_success_replaces_all.
  - apply four_success_replaces_all.
Qed.

(** A body that does not parse: the cycle signals RemoteError and the
    snapshot of an earlier cycle stays as it was. *)
Lemma C5_witness :
  let earlier :=
    ModeratorDashboard.replay (ModeratorDashboard.log_of world_all_200)
      ModeratorDashboard.initial in
  ModeratorDashboard.snapshot earlier = (JArray [], sample_stats, Some 1000%Z)
  /\ outcomes ModeratorDashboard.signals (ModeratorDashboard.log_of world_bad_body)
     = [RemoteError]
  /\ ModeratorDashboard.snapshot
       (ModeratorDashboard.replay (ModeratorDashboard.log_of world_bad_body) earlier)
     = ModeratorDashboard.snapshot earlier.
Proof.
  intro earlier. split; [reflexivity | split; [reflexivity |]].
  refine (proj2 (proj1 (C5_snapshot_atomic world_bad_body) RemoteError _ _) earlier).
  - left. reflexivity.
  - discriminate.
Defined.

(** The cycles of the sample worlds. *)
Example sample_cycles :
  map (fun w => outcomes ModeratorDashboard.signals (ModeratorDashboard.log_of w))
      [world_signed_out; world_users_401; world_500_then_401; world_bad_body;
       world_all_200]
  = [[Unauthenticated]; [Unauthorized]; [RemoteError]; [RemoteError];
     [SnapshotReplaced]]
  /\ map (fun w => outcomes ModeratorDashboardExt.signals
                     (ModeratorDashboardExt.log_of w))
      [world_signed_out; world_users_401; world_500_then_401; world_bad_body;
       world_all_200]
  = [[Unauthenticated]; [Unauthorized]; [RemoteError]; [RemoteError];
     [SnapshotReplaced]].
Proof. split; reflexivity. Qed.

(* ================================================================== *)
(** * More on the session state *)
(* ================================================================== *)

Section SessionMore.
Import AuthContext.

Lemma notify_eq (s : AuthState) (user : option User) :
  notify s user
  = {| currentUser := user; loading := false;
       isModerator := is_moderator_user user |}.
Proof.
  unfold notify, onAuthStateChanged_callback.
  destruct (is_moderator_user user); reflexivity.
Qed.

(** X1. The session state keeps no memory: after any sequence of
    notifications, from any state, it is decided by the last notification
    alone ([currentUser] is the user it carried, [loading] is false,
    [isModerator] is the allowlist test on that user).  So in every
    reachable state [isModerator] is the allowlist test on the stored
    [currentUser]; a sign-out always takes the moderator role away,
    whoever was signed in before, and after a sign-in the role is the new
    user's own: held exactly when that user's email is on the allowlist. *)
Theorem X1_last_notification_decides :
  (forall (s : AuthState) (ns : list (option User)) (user : option User),
      run s (ns ++ [user])
      = {| currentUser := user; loading := false;
           isModerator := is_moderator_user user |})
  /\ (forall s : AuthState,
        reachable s -> isModerator s = is_moderator_user (currentUser s))
  /\ (forall (s : AuthState) (ns : list (option User)),
        isModerator (run s (ns ++ [None])) = false)
  /\ (forall (s : AuthState) (ns : list (option User)) (u : User),
        isModerator (run s (ns ++ [Some u])) = true <->
        exists e, email u = Some e /\ In e MODERATOR_EMAILS).
Proof.
  assert (Hlast : forall s ns user,
             run s (ns ++ [user])
             = {| currentUser := user; loading := false;
                  isModerator := is_moderator_user user |}).
  { intros s ns user. unfold run. rewrite fold_left_app. cbn [fold_left].
    apply notify_eq. }
  split; [exact Hlast | split; [| split]].
  - intros s Hreach. destruct Hreach as [| s user _]; [reflexivity |].
    now rewrite notify_eq.
  - intros s ns. now rewrite Hlast.
  - intros s ns u. rewrite Hlast. cbn [isModerator is_moderator_user].
    destruct (email u) as [e |]; split.
    + intro H. apply andb_true_iff in H. destruct H as [_ H].
      exists e. split; [reflexivity | now apply includes_In].
    + intros [e' [He Hin]]. injection He as <-.
      apply andb_true_iff. split;
        [now apply moderator_email_truthy | now apply includes_In].
    + discriminate.
    + intros [e' [He _]]. discriminate.
Qed.

(** Two moderators in a row: the second sign-in keeps the role, as the
    second address is on the allowlist too; a third user loses it. *)
Example role_follows_the_user :
  let first := Some (mkUser "uid-1" (Some "akhyarahmad919@gmail.com")) in
  let second := Some (mkUser "uid-2" (Some "ansuthisis789@gmail.com")) in
  let third := Some (mkUser "uid-3" (Some "someone@example.com")) in
  isModerator (run initial [first; second]) = true
  /\ isModerator (run initial [first; second; third]) = false
  /\ isModerator (run initial [first; None]) = false.
Proof. repeat split. Qed.

Lemma map_negb_repeat (b : bool) (n : nat) :
  map negb (repeat b n) = repeat (negb b) n.
Proof. induction n as [| n IH]; [reflexivity |]. cbn. now rewrite IH. Qed.

(** X2. [AuthProvider] renders its children in no state before the first
    notification and in every state after it: along the states of the
    provider the children are absent once, at the start, and never
    unmounted again, whoever signs in or out. *)
Theorem X2_children_after_first_notification :
  forall ns : list (option User),
    map renders_children (history initial ns)
    = false :: repeat true (length ns).
Proof.
  intro ns.
  change (map renders_children (history initial ns))
    with (map (fun s => negb (loading s)) (history initial ns)).
  rewrite <- (map_map loading negb), loading_history.
  cbn [map loading initial negb]. now rewrite map_negb_repeat.
Qed.

End SessionMore.

(* ================================================================== *)
(** * More on the response loop *)
(* ================================================================== *)

(** X3. Whatever the number of responses, the loop ends in one of three
    ways and the first response that is not [ok] decides which: it
    completes normally without any effect when every response is [ok]; it
    navigates to "/documind" and returns when that first response carries
    401 or 403; it throws "HTTP error! status: " followed by that
    response's status otherwise.  It navigates at most once and touches no
    state. *)
Theorem X3_loop_first_failure :
  forall (Setter : Type) (rs : list Response),
    (Forall passes rs /\ @check_responses Setter rs = (Normal tt, []))
    \/ (exists pre r post,
          rs = pre ++ r :: post /\ Forall passes pre /\ unauthorized r = true
          /\ @check_responses Setter rs = (Returned, [Navigate "/documind"]))
    \/ (exists pre r post,
          rs = pre ++ r :: post /\ Forall passes pre
          /\ unauthorized r = false /\ ok r = false
          /\ @check_responses Setter rs
             = (Thrown ("HTTP error! status: " ++ string_of_Z (status r))%string, [])).
Proof.
  intros Setter rs. induction rs as [| r rs IH].
  - left. split; [constructor | reflexivity].
  - rewrite check_responses_cons. destruct (unauthorized r) eqn:Hu.
    + right; left. exists [], r, rs. repeat split; [constructor | assumption].
    + destruct (ok r) eqn:Hr.
      * destruct IH as [[Hall Heq] | [(pre & x & post & -> & Hpre & Hx & Heq)
                                     | (pre & x & post & -> & Hpre & Hx & Hok & Heq)]].
        -- left. split; [now constructor | exact Heq].
        -- right; left. exists (r :: pre), x, post.
           repeat split; [now constructor | assumption | exact Heq].
        -- right; right. exists (r :: pre), x, post.
           repeat split; [now constructor | assumption | assumption | exact Heq].
      * right; right. exists [], r, rs.
        repeat split; [constructor | assumption | assumption].
Qed.

(* ================================================================== *)
(** * More on load cycles *)
(* ================================================================== *)

Lemma usable_token_falsy (env : Env) (tok : option string) :
  AuthContext.getToken (auth env) = Fulfilled tok ->
  falsy_token tok = true -> usable_token env = None.
Proof.
  intros Htok Hfalsy. unfold usable_token. rewrite Htok.
  destruct tok as [t |]; [| reflexivity].
  unfold falsy_token in Hfalsy. apply negb_true_iff in Hfalsy.
  now rewrite Hfalsy.
Qed.

Lemma usable_token_truthy (env : Env) (t : string) :
  AuthContext.getToken (auth env) = Fulfilled (Some t) ->
  truthy t = true -> usable_token env = Some t.
Proof.
  intros Htok Htruthy. unfold usable_token. now rewrite Htok, Htruthy.
Qed.

Section RequestsTwo.
Import ModeratorDashboard.

Lemma two_requests (env : Env) :
  exists rest,
    log_of env
    = started
      ++ match usable_token env with
         | Some t => requested t
         | None => []
         end
      ++ rest
    /\ existsb is_fetch rest = false.
Proof.
  destruct (AuthContext.getToken (auth env)) as [[t |] | reason] eqn:Htok.
  - destruct (truthy t) eqn:Htruthy.
    + rewrite (usable_token_truthy env t Htok Htruthy).
      destruct (answers env t endpoints) as [rs |] eqn:Hans.
      * destruct (answers_two env t rs Hans) as (r1 & r2 & -> & _ & _).
        destruct (@check_responses_cases Setter [r1; r2])
          as [[_ Hc] | [(pre & x & post & _ & _ & _ & Hc)
                       | (pre & x & post & _ & _ & _ & _ & Hc)]];
          rewrite (two_cycle_answered env t r1 r2 _ _ Htok Htruthy Hans Hc);
          eexists; (split; [reflexivity |]); cbn [after_check app].
        -- destruct (Promise_all2 (json r1) (json r2)) as [[u st] | e];
             reflexivity.
        -- reflexivity.
        -- reflexivity.
      * destruct (two_cycle_not_answered env t Htok Htruthy Hans) as [reason Hlog].
        unfold log_of. rewrite Hlog. eexists. split; reflexivity.
    + assert (Hfalsy : falsy_token (Some t) = true)
        by (unfold falsy_token; now rewrite Htruthy).
      rewrite (usable_token_falsy env _ Htok Hfalsy).
      unfold log_of. rewrite (two_cycle_no_token env _ Htok Hfalsy).
      eexists. split; reflexivity.
  - rewrite (usable_token_falsy env None Htok eq_refl).
    unfold log_of. rewrite (two_cycle_no_token env None Htok eq_refl).
    eexists. split; reflexivity.
  - unfold usable_token, log_of.
    rewrite Htok, (two_cycle_token_rejected env reason Htok).
    eexists. split; reflexivity.
Qed.

End RequestsTwo.

Section RequestsFour.
Import ModeratorDashboardExt.

Lemma four_requests (env : Env) :
  exists rest,
    log_of env
    = started
      ++ match usable_token env with
         | Some t => requested t
         | None => []
         end
      ++ rest
    /\ existsb is_fetch rest = false.
Proof.
  destruct (AuthContext.getToken (auth env)) as [[t |] | reason] eqn:Htok.
  - destruct (truthy t) eqn:Htruthy.
    + rewrite (usable_token_truthy env t Htok Htruthy).
      destruct (answers env t endpoints) as [rs |] eqn:Hans.
      * destruct (answers_four env t rs Hans) as (r1 & r2 & r3 & r4 & -> & _).
        destruct (@check_responses_cases Setter [r1; r2; r3; r4])
          as [[_ Hc] | [(pre & x & post & _ & _ & _ & Hc)
                       | (pre & x & post & _ & _ & _ & _ & Hc)]];
          rewrite (four_cycle_answered env t r1 r2 r3 r4 _ _ Htok Htruthy Hans Hc);
          eexists; (split; [reflexivity |]); cbn [after_check app].
        -- destruct (Promise_all4 (json r1) (json r2) (json r3) (json r4))
             as [[[[u se] d] st] | e]; reflexivity.
        -- reflexivity.
        -- reflexivity.
      * destruct (four_cycle_not_answered env t Htok Htruthy Hans) as [reason Hlog].
        unfold log_of. rewrite Hlog. eexists. split; reflexivity.
    + assert (Hfalsy : falsy_token (Some t) = true)
        by (unfold falsy_token; now rewrite Htruthy).
      rewrite (usable_token_falsy env _ Htok Hfalsy).
      unfold log_of. rewrite (four_cycle_no_token env _ Htok Hfalsy).
      eexists. split; reflexivity.
  - rewrite (usable_token_falsy env None Htok eq_refl).
    unfold log_of. rewrite (four_cycle_no_token env None Htok eq_refl).
    eexists. split; reflexivity.
  - unfold usable_token, log_of.
    rewrite Htok, (four_cycle_token_rejected env reason Htok).
    eexists. split; reflexivity.
Qed.

End RequestsFour.

(** X4. The requests of a cycle depend on the token alone.  With a token
    that passes the guard, the cycle issues one GET per endpoint, in the
    order of the page (users, stats; users, sessions, documents, stats),
    every one with the header [Authorization: Bearer <that token>], right
    after its two opening updates and before anything else: a 401 from one
    endpoint never spares the requests to the others.  Without such a token
    ([getToken] gives [null] or the empty string, or rejects) it issues
    none.  Nothing is requested twice or later in the cycle. *)
Theorem X4_requests_of_a_cycle :
  forall env : Env,
    (exists rest,
        ModeratorDashboard.log_of env
        = [Update (ModeratorDashboard.setLoading true);
           Update (ModeratorDashboard.setError "")]
          ++ match usable_token env with
             | Some t =>
                 [Fetch (API_BASE_URL ++ "/moderator/users") ("Bearer " ++ t);
                  Fetch (API_BASE_URL ++ "/moderator/stats") ("Bearer " ++ t)]
             | None => []
             end
          ++ rest
        /\ existsb ModeratorDashboard.is_fetch rest = false)
    /\ (exists rest,
        ModeratorDashboardExt.log_of env
        = [Update (ModeratorDashboardExt.setLoading true);
           Update (ModeratorDashboardExt.setError "")]
          ++ match usable_token env with
             | Some t =>
                 [Fetch (API_BASE_URL ++ "/moderator/users") ("Bearer " ++ t);
                  Fetch (API_BASE_URL ++ "/moderator/sessions") ("Bearer " ++ t);
                  Fetch (API_BASE_URL ++ "/moderator/documents") ("Bearer " ++ t);
                  Fetch (API_BASE_URL ++ "/moderator/stats") ("Bearer " ++ t)]
             | None => []
             end
          ++ rest
        /\ existsb ModeratorDashboardExt.is_fetch rest = false).
Proof.
  intro env. split.
  - destruct (two_requests env) as (rest & Hlog & Hrest). exists rest.
    split; [exact Hlog | exact Hrest].
  - destruct (four_requests env) as (rest & Hlog & Hrest). exists rest.
    split; [exact Hlog | exact Hrest].
Qed.

(** X5. When a user is present and the provider fails to issue a token,
    [getToken] rejects and the cycle treats it as any other failure: it
    issues no request and does not redirect to the sign-in page; it logs
    the provider's reason, sets the error message and ends with
    [setLoading(false)]. *)
Theorem X5_token_unavailable :
  forall (env : Env) (user : AuthContext.User) (reason : string),
    AuthContext.auth_currentUser (auth env) = Some user ->
    AuthContext.getIdToken (auth env) user = Rejected reason ->
    ModeratorDashboard.loadDashboardData env
    = (Normal tt,
       [Update (ModeratorDashboard.setLoading true);
        Update (ModeratorDashboard.setError "");
        ConsoleError "Failed to load moderator data:" reason;
        Update (ModeratorDashboard.setError
                  "Failed to load moderator data. The server might be unavailable or you may not have access.");
        Update (ModeratorDashboard.setLoading false)])
    /\ ModeratorDashboardExt.loadDashboardData env
       = (Normal tt,
          [Update (ModeratorDashboardExt.setLoading true);
           Update (ModeratorDashboardExt.setError "");
           ConsoleError "Failed to load moderator data:" reason;
           Update (ModeratorDashboardExt.setError
                     "Failed to load moderator data. The server might be unavailable or you may not have access.");
           Update (ModeratorDashboardExt.setLoading false)]).
Proof.
  intros env user reason Huser Hid.
  assert (Htok : AuthContext.getToken (auth env) = Rejected reason)
    by (unfold AuthContext.getToken; now rewrite Huser, Hid).
  split.
  - now rewrite (two_cycle_token_rejected env reason Htok).
  - now rewrite (four_cycle_token_rejected env reason Htok).
Qed.

Lemma X5_witness :
  outcomes ModeratorDashboard.signals (ModeratorDashboard.log_of world_token_unavailable)
  = [RemoteError]
  /\ filter ModeratorDashboard.is_fetch (ModeratorDashboard.log_of world_token_unavailable)
     = [].
Proof.
  unfold ModeratorDashboard.log_of.
  rewrite (proj1 (X5_token_unavailable world_token_unavailable moderator
                    "auth/network-request-failed" eq_refl eq_refl)).
  split; reflexivity.
Defined.

(** A [try]/[catch]/[finally] whose handler and [finally] block complete
    normally never completes by [throw]. *)
Lemma try_catch_finally_caught {Setter : Type}
  (body : Async Setter unit) (handler : string -> Async Setter unit)
  (fin : Async Setter unit) :
  (forall err, fst (handler err) = Normal tt) ->
  fst fin = Normal tt ->
  fst (try_catch_finally body handler fin) = Normal tt
  \/ fst (try_catch_finally body handler fin) = Returned.
Proof.
  intros Hhandler Hfin. unfold try_catch_finally.
  destruct body as [[[] | err |] l]; destruct fin as [cf lf]; cbn [fst] in Hfin;
    subst cf.
  - left. reflexivity.
  - specialize (Hhandler err). destruct (handler err) as [ch lh].
    cbn [fst] in Hhandler. subst ch. left. reflexivity.
  - right. reflexivity.
Qed.

(** X6. [loadDashboardData] catches everything: whatever [getToken],
    [fetch] and [json] do, the function completes normally or by one of its
    two [return]s, never by a [throw], so the promise it returns never
    rejects (its callers, [useEffect] and the Refresh and Retry buttons, do
    not handle a rejection). *)
Theorem X6_never_rejects :
  forall env : Env,
    (fst (ModeratorDashboard.loadDashboardData env) = Normal tt
     \/ fst (ModeratorDashboard.loadDashboardData env) = Returned)
    /\ (fst (ModeratorDashboardExt.loadDashboardData env) = Normal tt
        \/ fst (ModeratorDashboardExt.loadDashboardData env) = Returned).
Proof.
  intro env. split.
  - unfold ModeratorDashboard.loadDashboardData.
    apply try_catch_finally_caught; [intro err |]; reflexivity.
  - unfold ModeratorDashboardExt.loadDashboardData.
    apply try_catch_finally_caught; [intro err |]; reflexivity.
Qed.

(* ================================================================== *)
(** * What is on screen *)
(* ================================================================== *)

Section ScreenTwo.
Import ModeratorDashboard ModeratorDashboardRender.

Lemma two_screen_after (env : Env) (s0 : State) :
  exists o,
    outcomes signals (log_of env) = [o]
    /\ render (replay (log_of env) s0)
       = match o with
         | RemoteError =>
             ConnectionError
               "Failed to load moderator data. The server might be unavailable or you may not have access."
         | _ => Panel (stats (replay (log_of env) s0))
         end.
Proof.
  destruct (two_cycle_cases env)
    as [(tok & _ & _ & Hlog)
       | [(reqs & Hreqs & _ & [Hlog | [reason Hlog]])
         | (t & r1 & r2 & u & st & _ & _ & _ & _ & _ & _ & Hlog)]];
    rewrite Hlog.
  - exists Unauthenticated. split; reflexivity.
  - exists Unauthorized. destruct Hreqs as [-> | [t ->]]; split; reflexivity.
  - exists RemoteError. destruct Hreqs as [-> | [t ->]]; split; reflexivity.
  - exists SnapshotReplaced. split; reflexivity.
Qed.

Lemma two_screen_during (env : Env) (s0 : State)
  (p q : list (Event Setter)) :
  log_of env = p ++ q -> p <> [] -> q <> [] ->
  render (replay p s0) = LoadingScreen.
Proof.
  intros Hsplit Hp Hq.
  destruct (two_one_outcome env) as (o & mid & Hlog & Hmid & _).
  rewrite Hlog in Hsplit. unfold render.
  now rewrite (two_loading_during mid p q s0 Hsplit Hmid Hp Hq).
Qed.

End ScreenTwo.

Section ScreenFour.
Import ModeratorDashboardExt ModeratorDashboardExtRender.

Lemma four_screen_after (env : Env) (s0 : State) :
  exists o,
    outcomes signals (log_of env) = [o]
    /\ render (replay (log_of env) s0)
       = match o with
         | RemoteError =>
             ConnectionError
               "Failed to load moderator data. The server might be unavailable or you may not have access."
         | _ =>
             Panel {| tab := activeTab (replay (log_of env) s0);
                      overview := stats (replay (log_of env) s0);
                      listed_users := users (replay (log_of env) s0);
                      listed_documents := documents (replay (log_of env) s0);
                      listed_sessions := sessions (replay (log_of env) s0) |}
         end.
Proof.
  destruct (four_cycle_cases env)
    as [(tok & _ & _ & Hlog)
       | [(reqs & Hreqs & _ & [Hlog | [reason Hlog]])
         | (t & r1 & r2 & r3 & r4 & u & se & d & st & _ & _ & _ & _ & _ & Hlog)]];
    rewrite Hlog.
  - exists Unauthenticated. split; reflexivity.
  - exists Unauthorized. destruct Hreqs as [-> | [t ->]]; split; reflexivity.
  - exists RemoteError. destruct Hreqs as [-> | [t ->]]; split; reflexivity.
  - exists SnapshotReplaced. split; reflexivity.
Qed.

Lemma four_screen_during (env : Env) (s0 : State)
  (p q : list (Event Setter)) :
  log_of env = p ++ q -> p <> [] -> q <> [] ->
  render (replay p s0) = LoadingScreen.
Proof.
  intros Hsplit Hp Hq.
  destruct (four_one_outcome env) as (o & mid & Hlog & Hmid & _).
  rewrite Hlog in Hsplit. unfold render.
  now rewrite (four_loading_during mid p q s0 Hsplit Hmid Hp Hq).
Qed.

End ScreenFour.

(** X7. Which of its three returns a page takes once a cycle is over
    depends on the cycle's outcome alone, not on the state before: the
    "Connection Error" return, with the fixed failure message, after
    RemoteError; the dashboard return, on the state the cycle left, after
    every other outcome, a redirect included.  It is never the spinner
    return, and an error left by an earlier cycle never survives a cycle
    that does not fail (each cycle starts with [setError('')]). *)
Theorem X7_return_after_a_cycle :
  forall env : Env,
    (forall s0,
        exists o,
          outcomes ModeratorDashboard.signals (ModeratorDashboard.log_of env) = [o]
          /\ ModeratorDashboardRender.render
               (ModeratorDashboard.replay (ModeratorDashboard.log_of env) s0)
             = match o with
               | RemoteError =>
                   ConnectionError
                     "Failed to load moderator data. The server might be unavailable or you may not have access."
               | _ =>
                   Panel (ModeratorDashboard.stats
                            (ModeratorDashboard.replay
                               (ModeratorDashboard.log_of env) s0))
               end)
    /\ (forall s0,
        exists o,
          outcomes ModeratorDashboardExt.signals (ModeratorDashboardExt.log_of env)
          = [o]
          /\ ModeratorDashboardExtRender.render
               (ModeratorDashboardExt.replay (ModeratorDashboardExt.log_of env) s0)
             = match o with
               | RemoteError =>
                   ConnectionError
                     "Failed to load moderator data. The server might be unavailable or you may not have access."
               | _ =>
                   let s1 :=
                     ModeratorDashboardExt.replay
                       (ModeratorDashboardExt.log_of env) s0 in
                   Panel
                     {| ModeratorDashboardExtRender.tab :=
                          ModeratorDashboardExt.activeTab s1;
                        ModeratorDashboardExtRender.overview :=
                          ModeratorDashboardExt.stats s1;
                        ModeratorDashboardExtRender.listed_users :=
                          ModeratorDashboardExt.users s1;
                        ModeratorDashboardExtRender.listed_documents :=
                          ModeratorDashboardExt.documents s1;
                        ModeratorDashboardExtRender.listed_sessions :=
                          ModeratorDashboardExt.sessions s1 |}
               end).
Proof.
  intro env. split; intro s0.
  - apply two_screen_after.
  - apply four_screen_after.
Qed.

(** X8. While a cycle runs the page shows the spinner and nothing else:
    at every point after the cycle's first update and before its last, the
    component returns the loading screen, whatever it showed before.  A
    refresh therefore takes the dashboard (and a retry the error screen)
    off the screen until the cycle is over. *)
Theorem X8_spinner_during_a_cycle :
  forall env : Env,
    (forall s0 p q,
        ModeratorDashboard.log_of env = p ++ q -> p <> [] -> q <> [] ->
        ModeratorDashboardRender.render (ModeratorDashboard.replay p s0)
        = LoadingScreen)
    /\ (forall s0 p q,
        ModeratorDashboardExt.log_of env = p ++ q -> p <> [] -> q <> [] ->
        ModeratorDashboardExtRender.render (ModeratorDashboardExt.replay p s0)
        = LoadingScreen).
Proof.
  intro env. split; intros s0 p q.
  - apply two_screen_during.
  - apply four_screen_during.
Qed.

(** A dashboard is on screen, a refresh starts and the requests are out. *)
Lemma X8_witness :
  let shown :=
    ModeratorDashboard.replay (ModeratorDashboard.log_of world_all_200)
      ModeratorDashboard.initial in
  ModeratorDashboardRender.render shown = Panel sample_stats
  /\ ModeratorDashboardRender.render
       (ModeratorDashboard.replay
          (firstn 4 (ModeratorDashboard.log_of world_all_200)) shown)
     = LoadingScreen.
Proof.
  intro shown. split; [reflexivity |].
  refine (proj1 (X8_spinner_during_a_cycle world_all_200) shown
            (firstn 4 (ModeratorDashboard.log_of world_all_200))
            (skipn 4 (ModeratorDashboard.log_of world_all_200)) _ _ _).
  - symmetry. apply firstn_skipn.
  - discriminate.
  - discriminate.
Defined.

(* ================================================================== *)
(** * The tabs of the four-resource page *)
(* ================================================================== *)

Section Tabs.
Import ModeratorDashboardExt ModeratorDashboardExtRender.

Lemma activeTab_kept (l : list (Event Setter)) (s : State) :
  existsb sets_tab l = false -> activeTab (replay l s) = activeTab s.
Proof.
  revert s. induction l as [| e l IH]; intros s H; [reflexivity |].
  cbn [existsb] in H. apply orb_false_iff in H. destruct H as [He Hl].
  unfold replay. cbn [fold_left]. fold (replay l (step s e)). rewrite (IH _ Hl).
  destruct e as [[] | | |]; try reflexivity. discriminate He.
Qed.

Lemma cycle_sets_no_tab (env : Env) :
  existsb sets_tab (log_of env) = false.
Proof.
  destruct (four_cycle_cases env)
    as [(tok & _ & _ & Hlog)
       | [(reqs & Hreqs & _ & [Hlog | [reason Hlog]])
         | (t & r1 & r2 & r3 & r4 & u & se & d & st & _ & _ & _ & _ & _ & Hlog)]];
    rewrite Hlog.
  - reflexivity.
  - destruct Hreqs as [-> | [t ->]]; reflexivity.
  - destruct Hreqs as [-> | [t ->]]; reflexivity.
  - reflexivity.
Qed.

Lemma cycle_keeps_tab (env : Env) (p q : list (Event Setter)) (s : State) :
  log_of env = p ++ q -> activeTab (replay p s) = activeTab s.
Proof.
  intro Hsplit. apply activeTab_kept.
  pose proof (cycle_sets_no_tab env) as H. rewrite Hsplit, existsb_app in H.
  now apply orb_false_iff in H.
Qed.

Lemma tab_is_listed (s : State) :
  reachable s -> In (activeTab s) (map fst tabs).
Proof.
  induction 1 as [| s tab _ _ Htab | s env p q _ IH Hsplit].
  - left. reflexivity.
  - cbn [apply click activeTab]. now apply in_map.
  - now rewrite (cycle_keeps_tab env p q s Hsplit).
Qed.

(** X9. No load cycle, and no part of one, changes the selected tab: a
    refresh, a retry or the load on mount leaves [activeTab] as it was,
    whatever the service answers. *)
Theorem X9_cycle_keeps_the_tab :
  forall (env : Env) (p q : list (Event Setter)) (s : State),
    log_of env = p ++ q ->
    activeTab (replay p s) = activeTab s
    /\ activeTab (replay (log_of env) s) = activeTab s.
Proof.
  intros env p q s Hsplit. split.
  - exact (cycle_keeps_tab env p q s Hsplit).
  - apply (cycle_keeps_tab env (log_of env) []). now rewrite app_nil_r.
Qed.

Lemma X9_witness :
  let on_documents := apply (click ("documents", "Documents")) initial in
  activeTab (replay (log_of world_500_then_401) on_documents) = "documents".
Proof.
  intro on_documents.
  exact (proj2 (X9_cycle_keeps_the_tab world_500_then_401
                  (log_of world_500_then_401) [] on_documents
                  (eq_sym (app_nil_r _)))).
Defined.

(** X10. In every state the four-resource page can reach, by tab clicks
    and load cycles in any order and at any point of a cycle, [activeTab]
    is one of "users", "documents" and "sessions".  So of the three guards
    [activeTab === '...'] in front of the tables exactly one holds, the one
    of the selected tab, and of the tab buttons' tests [activeTab ===
    tab.id] exactly one holds: the dashboard markup never selects no table
    or two. *)
Theorem X10_exactly_one_block :
  forall s : State,
    reachable s ->
    In (activeTab s) table_blocks
    /\ selected_blocks s = [activeTab s]
    /\ map fst (active_tabs s) = [activeTab s].
Proof.
  intros s Hreach. pose proof (tab_is_listed s Hreach) as Hin.
  split; [exact Hin |].
  unfold selected_blocks, active_tabs.
  destruct Hin as [H | [H | [H | []]]]; rewrite <- H; split; reflexivity.
Qed.

Lemma X10_witness :
  let s :=
    replay (log_of world_500_then_401)
      (apply (click ("sessions", "Sessions"))
         (replay (log_of world_all_200) initial)) in
  reachable s /\ selected_blocks s = ["sessions"].
Proof.
  intro s.
  assert (Hreach : reachable s).
  { apply (reach_cycle _ world_500_then_401 _ []); [| now rewrite app_nil_r].
    apply reach_click; [| right; right; left; reflexivity].
    apply (reach_cycle _ world_all_200 _ []); [constructor | now rewrite app_nil_r]. }
  split; [exact Hreach |].
  exact (proj1 (proj2 (X10_exactly_one_block s Hreach))).
Defined.

End Tabs.

(* ================================================================== *)
(** * More on the classification *)
(* ================================================================== *)

Section ClassificationMore.

Lemma num_lt_mono (a b : number) (c : Z) :
  a <> NaN -> b <> NaN ->
  num_lt b a = false ->
  num_lt b (of_Z c) = true -> num_lt a (of_Z c) = true.
Proof.
  intros Ha Hb Hle Hlt.
  destruct a as [x | | |], b as [y | | |]; cbn in *;
    try congruence; try contradiction.
  apply Qltb_ge in Hle. apply Qltb_lt in Hlt. apply Qltb_lt.
  exact (Qle_lt_trans _ _ _ Hle Hlt).
Qed.

(** A classifier by two thresholds, as each branch of [getColorClasses]
    is one. *)
Lemma thresholds_monotone (lo hi : Z) (a b : number) :
  a <> NaN -> b <> NaN -> num_lt b a = false ->
  exists ta tb,
    (if num_lt a (of_Z lo) then green
     else if num_lt a (of_Z hi) then yellow else red) = tier_classes ta
    /\ (if num_lt b (of_Z lo) then green
        else if num_lt b (of_Z hi) then yellow else red) = tier_classes tb
    /\ tier_rank ta <= tier_rank tb.
Proof.
  intros Ha Hb Hle.
  destruct (num_lt b (of_Z lo)) eqn:Hblo.
  - rewrite (num_lt_mono a b lo Ha Hb Hle Hblo).
    exists nominal, nominal. repeat split. apply le_n.
  - destruct (num_lt a (of_Z lo)) eqn:Halo.
    + destruct (num_lt b (of_Z hi)).
      * exists nominal, elevated. repeat split. cbn. lia.
      * exists nominal, critical. repeat split. cbn. lia.
    + destruct (num_lt b (of_Z hi)) eqn:Hbhi.
      * rewrite (num_lt_mono a b hi Ha Hb Hle Hbhi).
        exists elevated, elevated. repeat split. apply le_n.
      * destruct (num_lt a (of_Z hi)).
        -- exists elevated, critical. repeat split. cbn. lia.
        -- exists critical, critical. repeat split. apply le_n.
Qed.

(** X11. Severity never drops when a gauge grows: for any unit and any
    two numbers [a <= b] (finite or infinite), both pages give [b] a tier
    at least as severe as the one they give [a].  [NaN], which compares
    below nothing, is classified critical whatever the unit. *)
Theorem X11_severity_monotone :
  (forall (u : string) (a b : number),
      a <> NaN -> b <> NaN -> num_lt b a = false ->
      (exists ta tb,
          ModeratorDashboard.getColorClasses a u = tier_classes ta
          /\ ModeratorDashboard.getColorClasses b u = tier_classes tb
          /\ tier_rank ta <= tier_rank tb)
      /\ (exists ta tb,
          ModeratorDashboardExt.getColorClasses a u = tier_classes ta
          /\ ModeratorDashboardExt.getColorClasses b u = tier_classes tb
          /\ tier_rank ta <= tier_rank tb))
  /\ (forall u : string,
        ModeratorDashboard.getColorClasses NaN u = tier_classes critical
        /\ ModeratorDashboardExt.getColorClasses NaN u = tier_classes critical).
Proof.
  split.
  - intros u a b Ha Hb Hle.
    unfold ModeratorDashboard.getColorClasses, ModeratorDashboardExt.getColorClasses.
    destruct (u =? "ms")%string; split; now apply thresholds_monotone.
  - intro u.
    unfold ModeratorDashboard.getColorClasses, ModeratorDashboardExt.getColorClasses.
    destruct (u =? "ms")%string; split; reflexivity.
Qed.

Lemma X11_witness :
  exists ta tb,
    ModeratorDashboard.getColorClasses (Finite 120) "ms" = tier_classes ta
    /\ ModeratorDashboard.getColorClasses PosInfinity "ms" = tier_classes tb
    /\ tier_rank ta <= tier_rank tb.
Proof.
  refine (proj1 (proj1 X11_severity_monotone "ms" (Finite 120) PosInfinity _ _ _)).
  - discriminate.
  - discriminate.
  - reflexivity.
Defined.

Lemma classes_range (v : number) (u : string) :
  (exists t, ModeratorDashboard.getColorClasses v u = tier_classes t)
  /\ (exists t, ModeratorDashboardExt.getColorClasses v u = tier_classes t).
Proof.
  unfold ModeratorDashboard.getColorClasses, ModeratorDashboardExt.getColorClasses.
  destruct (u =? "ms")%string; split;
    repeat match goal with
           | |- context [num_lt ?x ?y] => destruct (num_lt x y)
           end;
    first [now exists nominal | now exists elevated | now exists critical].
Qed.

Lemma class_names_of_tier (t : SeverityTier) :
  value_className (tier_classes t)
  = ("text-2xl font-bold text-" ++ tier_colour t ++ "-400")%string
  /\ bar_className (tier_classes t)
     = ("h-full bg-" ++ tier_colour t ++ "-900/20 transition-all duration-500")%string.
Proof. destruct t; split; reflexivity. Qed.

(** X12. For every value and unit a card's two class names are well
    formed and of one colour: [colorClasses.split(' ')] always has the two
    parts the markup indexes, so no class reads "undefined", and the text
    class and the bar class are the green, the yellow or the red pair
    together, never mixed. *)
Theorem X12_class_names :
  forall (v : number) (u : string),
    (exists t,
        ModeratorDashboard.getColorClasses v u = tier_classes t
        /\ value_className (ModeratorDashboard.getColorClasses v u)
           = ("text-2xl font-bold text-" ++ tier_colour t ++ "-400")%string
        /\ bar_className (ModeratorDashboard.getColorClasses v u)
           = ("h-full bg-" ++ tier_colour t
                ++ "-900/20 transition-all duration-500")%string)
    /\ (exists t,
        ModeratorDashboardExt.getColorClasses v u = tier_classes t
        /\ value_className (ModeratorDashboardExt.getColorClasses v u)
           = ("text-2xl font-bold text-" ++ tier_colour t ++ "-400")%string
        /\ bar_className (ModeratorDashboardExt.getColorClasses v u)
           = ("h-full bg-" ++ tier_colour t
                ++ "-900/20 transition-all duration-500")%string).
Proof.
  intros v u. destruct (classes_range v u) as [[t2 H2] [t4 H4]]. split.
  - exists t2. rewrite H2. split; [reflexivity | apply class_names_of_tier].
  - exists t4. rewrite H4. split; [reflexivity | apply class_names_of_tier].
Qed.

End ClassificationMore.
